(** * Fundamental analyst agent: ratio and valuation engine

    A shallow embedding of [src/src/financial_analyser.py]
    (class [FundamentalAnalyzer]) and the properties of its four calculators:
    [calculate_profitability_ratios], [calculate_leverage_ratios],
    [calculate_growth_metrics] and [simple_dcf_valuation].

    Modelling choices.
    - A pandas [DataFrame] read with [index_col=0] is a list of column labels
      (reporting periods, most recent first) and a list of labelled rows.
      Labels are taken to be distinct within a table (on a repeated row label
      pandas would select several rows at once; the model reads the first).
    - Python effects are explicit: a computation yields the lines it printed
      and either a returned value or a raised exception.  [try ... except
      KeyError] catches [KeyError] only.
    - The calculators never branch on a number, so they are written once over
      an interface of arithmetic operations ([Arith], [Power]); what is proved
      over the interface holds of every instance.
    - [float] is the instance the program runs on.  Table cells are numpy
      float64 scalars and the rates Python floats, both binary64: [+ - * /]
      and [abs] are the IEEE operations, none of which raises on a numpy
      scalar (numpy reports floating-point errors as warnings, modelled apart
      in [np_flag] and [np_dcf_project]), and [**] is Python's float power,
      which raises [ZeroDivisionError] or [OverflowError].  A column holding
      integers only is read by pandas as int64 and is outside this instance.
    - [xq], exact rationals extended with the IEEE special values, leaves
      rounding, overflow and the sign of zero out.  It carries the worked
      examples of the control flow and the statements in which no rounding
      or overflow can take part. *)

From Stdlib Require Import String List ZArith QArith Qreduction Qpower Qabs.
From Stdlib Require Import Lia Lqa Bool.
From Stdlib Require Import Uint63 Floats.
Import ListNotations.

Set Warnings "-register-all".
Local Open Scope string_scope.
Local Open Scope list_scope.

(** ** Exceptions, printed output and the effect monad *)

Inductive exn : Type :=
| KeyError (key : string)
| IndexError
| ZeroDivisionError
| OverflowError.

(** One fragment of a printed line: literal text, the [repr] of a label (what
    formatting a [KeyError] shows) or the [repr] of a list of labels. *)
Inductive frag : Type :=
| Lit (s : string)
| ReprLabel (s : string)
| ReprLabels (l : list string).

(** One call of [print]. *)
Definition line : Type := list frag.

Inductive outcome (A : Type) : Type :=
| Return (a : A)
| Raise (e : exn).
Arguments Return {A} a.
Arguments Raise {A} e.

(** A computation: what it printed, in order, and how it ended. *)
Definition M (A : Type) : Type := (list line * outcome A)%type.

Definition ret {A} (a : A) : M A := ([], Return a).
Definition raise {A} (e : exn) : M A := ([], Raise e).
Definition print (l : line) : M unit := ([l], Return tt).

Definition bind {A B} (m : M A) (f : A -> M B) : M B :=
  match m with
  | (o, Return a) => let (o', r) := f a in (o ++ o', r)
  | (o, Raise e) => (o, Raise e)
  end.

(** [try: m except KeyError as e: h e]; any other exception passes through. *)
Definition try_except_KeyError {A} (m : M A) (h : string -> M A) : M A :=
  match m with
  | (o, Raise (KeyError k)) => let (o', r) := h k in (o ++ o', r)
  | _ => m
  end.

Declare Scope py_scope.
Delimit Scope py_scope with py.
Notation "x <- c1 ;; c2" := (bind c1 (fun x => c2))
  (at level 61, c1 at next level, right associativity) : py_scope.
Notation "c1 ;;; c2" := (bind c1 (fun _ => c2))
  (at level 61, right associativity) : py_scope.
Local Open Scope py_scope.

Definition output {A} (m : M A) : list line := fst m.
Definition result {A} (m : M A) : outcome A := snd m.

(** The newline character of the source's ["\n..."] literals. *)
Definition nl : string := String (Ascii.ascii_of_nat 10) EmptyString.

(** ** Arithmetic interface *)

(** The operations the calculators apply to table cells (numpy scalars: no
    operation raises) and to the rate parameters. *)
Class Arith (num : Type) : Type := {
  of_Z : Z -> num;               (* the integer literals 0, 1, 100 *)
  add : num -> num -> num;
  sub : num -> num -> num;
  mul : num -> num -> num;
  div : num -> num -> num;
  absolute : num -> num;         (* abs(x) *)
  missing : num                  (* the NaN pandas puts in an empty cell *)
}.

(** [x ** n] for a Python float [x] and a Python int [n]: a number, or one
    of the two exceptions Python raises there, [ZeroDivisionError] (zero to a
    negative power) and [OverflowError] (the power is out of range). *)
Inductive pow_result (num : Type) : Type :=
| PowValue (y : num)
| PowZeroDivision
| PowOverflow.
Arguments PowValue {num} y.
Arguments PowZeroDivision {num}.
Arguments PowOverflow {num}.

Class Power (num : Type) : Type := {
  power : num -> Z -> pow_result num
}.

Definition pow {num} `{Power num} (x : num) (n : Z) : M num :=
  match power x n with
  | PowValue y => ret y
  | PowZeroDivision => raise ZeroDivisionError
  | PowOverflow => raise OverflowError
  end.

(** A computation that ended in one of the exceptions of [**], having
    printed nothing. *)
Definition pow_raises {A} (m : M A) : Prop :=
  m = raise ZeroDivisionError \/ m = raise OverflowError.

(** ** Values returned by the calculators *)

Inductive pyval (num : Type) : Type :=
| VNum (x : num)                       (* a number *)
| VInt (z : Z)                         (* a Python int *)
| VStr (s : string)                    (* a string literal *)
| VPercent (x : num)                   (* f"{x}%" *)
| VDict (d : list (string * pyval num)).
Arguments VNum {num} x.
Arguments VInt {num} z.
Arguments VStr {num} s.
Arguments VPercent {num} x.
Arguments VDict {num} d.

(** A Python dict with string keys, in insertion order. *)
Definition dict (num : Type) : Type := list (string * pyval num).

Fixpoint dict_get {num} (k : string) (d : dict num) : option (pyval num) :=
  match d with
  | [] => None
  | (k', v) :: d' => if String.eqb k k' then Some v else dict_get k d'
  end.

Definition keys {num} (d : dict num) : list string := map fst d.

(** ** Statement tables *)

Record DataFrame (num : Type) : Type := {
  columns : list string;
  rows : list (string * list num)
}.
Arguments columns {num} d.
Arguments rows {num} d.

Section Frames.
Context {num : Type} `{Arith num}.

(** [df.index]: the row labels, in order. *)
Definition index (df : DataFrame num) : list string := map fst (rows df).

(** [label in df.index] *)
Definition contains (l : list string) (label : string) : bool :=
  existsb (String.eqb label) l.

(** [labels[i]] on a pandas Index: out of range raises [IndexError]. *)
Definition getitem (labels : list string) (i : nat) : M string :=
  match nth_error labels i with
  | Some l => ret l
  | None => raise IndexError
  end.

Fixpoint position (label : string) (l : list string) : option nat :=
  match l with
  | [] => None
  | x :: l' => if String.eqb label x then Some 0%nat
               else option_map S (position label l')
  end.

Fixpoint row_values (label : string) (rs : list (string * list num))
  : option (list num) :=
  match rs with
  | [] => None
  | (x, vs) :: rs' => if String.eqb label x then Some vs
                      else row_values label rs'
  end.

(** [df.loc[row, col]] for two scalar labels.  pandas resolves the column
    first, then the row; a label that is absent raises [KeyError] with that
    label.  A row shorter than the header reads as NaN, as [read_csv] pads
    it. *)
Definition loc (df : DataFrame num) (row col : string) : M num :=
  match position col (columns df) with
  | None => raise (KeyError col)
  | Some j =>
      match row_values row (rows df) with
      | None => raise (KeyError row)
      | Some vs => ret (nth j vs missing)
      end
  end.

(** [labels[:10]] *)
Definition head10 (labels : list string) : list string := firstn 10 labels.
End Frames.

(** ** The analyzer *)

Record FundamentalAnalyzer (num : Type) : Type := {
  ticker : string;
  income_stmt : DataFrame num;
  balance_sheet : DataFrame num;
  cashflow : DataFrame num
}.
Arguments ticker {num} f.
Arguments income_stmt {num} f.
Arguments balance_sheet {num} f.
Arguments cashflow {num} f.

Declare Scope num_scope.
Delimit Scope num_scope with num.
Infix "+" := add : num_scope.
Infix "-" := sub : num_scope.
Infix "*" := mul : num_scope.
Infix "/" := div : num_scope.

Section Calculators.
Context {num : Type} `{Arith num}.
Variable self : FundamentalAnalyzer num.

(** [_try_alternative_names] (lines 113-127). *)
Definition _try_alternative_names : M (dict num) :=
  latest <- getitem (columns (income_stmt self)) 0 ;;
  print [Lit (nl ++ "Available Income Statement rows:")] ;;;
  print [ReprLabels (head10 (index (income_stmt self)))] ;;;
  print [Lit (nl ++ "Available Balance Sheet rows:")] ;;;
  print [ReprLabels (head10 (index (balance_sheet self)))] ;;;
  ret [].

(** [calculate_profitability_ratios] (lines 63-111). *)
Definition calculate_profitability_ratios : M (dict num) :=
  latest <- getitem (columns (income_stmt self)) 0 ;;
  try_except_KeyError
    (revenue <- loc (income_stmt self) "Total Revenue" latest ;;
     net_income <- loc (income_stmt self) "Net Income" latest ;;
     total_assets <- loc (balance_sheet self) "Total Assets" latest ;;
     shareholders_equity <-
       loc (balance_sheet self) "Stockholders Equity" latest ;;
     let ratios :=
       [ ("Net Profit Margin (%)",
          VNum ((net_income / revenue) * of_Z 100)%num);
         ("ROA (Return on Assets %)",
          VNum ((net_income / total_assets) * of_Z 100)%num);
         ("ROE (Return on Equity %)",
          VNum ((net_income / shareholders_equity) * of_Z 100)%num) ] in
     ret ratios)
    (fun e =>
       print [Lit "Warning: Could not find "; ReprLabel e;
              Lit ". Check row names in CSV."] ;;;
       _try_alternative_names).

(** [calculate_leverage_ratios] (lines 129-171). *)
Definition calculate_leverage_ratios : M (dict num) :=
  latest <- getitem (columns (balance_sheet self)) 0 ;;
  try_except_KeyError
    (total_debt <- loc (balance_sheet self) "Total Debt" latest ;;
     total_equity <- loc (balance_sheet self) "Stockholders Equity" latest ;;
     total_assets <- loc (balance_sheet self) "Total Assets" latest ;;
     let ratios :=
       [ ("Debt-to-Equity", VNum (total_debt / total_equity)%num);
         ("Debt-to-Assets", VNum (total_debt / total_assets)%num);
         ("Equity Multiplier", VNum (total_assets / total_equity)%num) ] in
     ret ratios)
    (fun e =>
       print [Lit "Warning: Could not find "; ReprLabel e] ;;;
       ret []).

(** [calculate_growth_metrics] (lines 173-211). *)
Definition calculate_growth_metrics : M (dict num) :=
  if (length (columns (income_stmt self)) <? 2)%nat then
    ret [("Note", VStr "Insufficient data for growth calculation")]
  else
    current_year <- getitem (columns (income_stmt self)) 0 ;;
    previous_year <- getitem (columns (income_stmt self)) 1 ;;
    try_except_KeyError
      (current_revenue <-
         loc (income_stmt self) "Total Revenue" current_year ;;
       previous_revenue <-
         loc (income_stmt self) "Total Revenue" previous_year ;;
       current_ni <- loc (income_stmt self) "Net Income" current_year ;;
       previous_ni <- loc (income_stmt self) "Net Income" previous_year ;;
       let growth :=
         [ ("Revenue Growth YoY (%)",
            VNum (((current_revenue - previous_revenue) / previous_revenue)
                  * of_Z 100)%num);
           ("Net Income Growth YoY (%)",
            VNum (((current_ni - previous_ni) / previous_ni)
                  * of_Z 100)%num) ] in
       ret growth)
      (fun _ => ret []).
End Calculators.

(** ** Discounted cash flow valuation *)

Section Valuation.
Context {num : Type} `{Arith num} `{Power num}.
Variable self : FundamentalAnalyzer num.

(** [range(1, years + 1)] *)
Definition range1 (years : Z) : list Z :=
  map Z.of_nat (seq 1 (Z.to_nat years)).

(** [sum(l)]: Python starts from the int 0 and adds from the left. *)
Definition py_sum (l : list num) : num := fold_left add l (of_Z 0).

(** Lines 235-249: the base-year free cash flow.  [None] stands for the
    [else] branch, which prints its message and makes the function return
    the empty dict at once. *)
Definition dcf_base_fcf : M (option num) :=
  latest <- getitem (columns (cashflow self)) 0 ;;
  if contains (index (cashflow self)) "Free Cash Flow" then
    fcf <- loc (cashflow self) "Free Cash Flow" latest ;;
    ret (Some fcf)
  else if contains (index (cashflow self)) "Operating Cash Flow" then
    ocf <- loc (cashflow self) "Operating Cash Flow" latest ;;
    capex <-
      (if contains (index (cashflow self)) "Capital Expenditure"
       then c <- loc (cashflow self) "Capital Expenditure" latest ;;
            ret (absolute c)
       else ret (of_Z 0)) ;;
    ret (Some (ocf - capex)%num)
  else
    print [Lit "Cannot find cash flow data"] ;;;
    ret None.

(** Lines 255-259: the body of the projection loop for one [year]. *)
Definition dcf_present_value (fcf growth_rate discount_rate : num)
    (year : Z) : M num :=
  g <- pow (of_Z 1 + growth_rate)%num year ;;
  let future_fcf := (fcf * g)%num in
  d <- pow (of_Z 1 + discount_rate)%num year ;;
  let pv := (future_fcf / d)%num in
  ret pv.

(** Lines 252-260: the loop, appending to [projected_fcf]. *)
Fixpoint dcf_loop (fcf growth_rate discount_rate : num) (years : list Z)
    (projected_fcf : list num) : M (list num) :=
  match years with
  | [] => ret projected_fcf
  | year :: rest =>
      pv <- dcf_present_value fcf growth_rate discount_rate year ;;
      dcf_loop fcf growth_rate discount_rate rest (projected_fcf ++ [pv])
  end.

(** Lines 252-283: projection, terminal value and the returned dict. *)
Definition dcf_project (fcf growth_rate discount_rate : num) (years : Z)
  : M (dict num) :=
  projected_fcf <-
    dcf_loop fcf growth_rate discount_rate (range1 years) [] ;;
  g <- pow (of_Z 1 + growth_rate)%num years ;;
  let terminal_fcf := ((fcf * g) * (of_Z 1 + growth_rate))%num in
  let terminal_value := (terminal_fcf / (discount_rate - growth_rate))%num in
  d <- pow (of_Z 1 + discount_rate)%num years ;;
  let pv_terminal := (terminal_value / d)%num in
  let enterprise_value := (py_sum projected_fcf + pv_terminal)%num in
  ret [ ("Enterprise Value", VNum enterprise_value);
        ("Current FCF", VNum fcf);
        ("Projected FCF (PV)", VNum (py_sum projected_fcf));
        ("Terminal Value (PV)", VNum pv_terminal);
        ("Assumptions",
         VDict [ ("Growth Rate", VPercent (growth_rate * of_Z 100)%num);
                 ("Discount Rate", VPercent (discount_rate * of_Z 100)%num);
                 ("Years", VInt years) ]) ].

(** [simple_dcf_valuation] (lines 213-289). *)
Definition simple_dcf_valuation (growth_rate discount_rate : num)
    (years : Z) : M (dict num) :=
  try_except_KeyError
    (base <- dcf_base_fcf ;;
     match base with
     | None => ret []
     | Some fcf => dcf_project fcf growth_rate discount_rate years
     end)
    (fun e =>
       print [Lit "Could not perform DCF: "; ReprLabel e] ;;;
       print [Lit (nl ++ "Available Cash Flow rows:")] ;;;
       print [ReprLabels (head10 (index (cashflow self)))] ;;;
       ret []).
End Valuation.

(** ** Exact arithmetic with the IEEE special values *)

Inductive xq : Type :=
| Fin (q : Q)
| PInf
| NInf
| NaN.

Local Open Scope Q_scope.

(** Finite results are kept in lowest terms, so that equal numbers are equal
    terms. *)
Definition fin (q : Q) : xq := Fin (Qred q).

(** The infinity of a given sign; zero times infinity is NaN. *)
Definition signed_inf (c : comparison) : xq :=
  match c with
  | Gt => PInf
  | Lt => NInf
  | Eq => NaN
  end.

Definition xq_opp (x : xq) : xq :=
  match x with
  | Fin q => fin (- q)
  | PInf => NInf
  | NInf => PInf
  | NaN => NaN
  end.

Definition xq_add (x y : xq) : xq :=
  match x, y with
  | NaN, _ | _, NaN => NaN
  | Fin a, Fin b => fin (a + b)
  | PInf, NInf | NInf, PInf => NaN
  | PInf, _ | _, PInf => PInf
  | NInf, _ | _, NInf => NInf
  end.

Definition xq_sub (x y : xq) : xq :=
  match x, y with
  | Fin a, Fin b => fin (a - b)
  | _, _ => xq_add x (xq_opp y)
  end.

Definition xq_mul (x y : xq) : xq :=
  match x, y with
  | NaN, _ | _, NaN => NaN
  | Fin a, Fin b => fin (a * b)
  | Fin a, PInf | PInf, Fin a => signed_inf (Qcompare a 0)
  | Fin a, NInf | NInf, Fin a => signed_inf (Qcompare 0 a)
  | PInf, PInf | NInf, NInf => PInf
  | PInf, NInf | NInf, PInf => NInf
  end.

(** Division as numpy scalars perform it: a zero divisor gives an infinity
    of the sign of the dividend, or NaN for 0/0; nothing is raised.  A zero is
    read as +0.  (numpy reports such a division through Python's warnings
    machinery; that channel is neither a result nor a printed diagnostic of
    the calculators and is left out.) *)
Definition xq_div (x y : xq) : xq :=
  match x, y with
  | NaN, _ | _, NaN => NaN
  | Fin a, Fin b => if Qeq_bool b 0 then signed_inf (Qcompare a 0) else fin (a / b)
  | Fin _, (PInf | NInf) => Fin 0
  | PInf, Fin b => signed_inf (if Qle_bool 0 b then Gt else Lt)
  | NInf, Fin b => signed_inf (if Qle_bool 0 b then Lt else Gt)
  | (PInf | NInf), (PInf | NInf) => NaN
  end.

Definition xq_abs (x : xq) : xq :=
  match x with
  | Fin q => fin (Qabs q)
  | PInf | NInf => PInf
  | NaN => NaN
  end.

(** [x ** n] in exact arithmetic: [x ** 0] is 1 for every [x], zero to a
    negative power raises; being exact, no power is ever out of range, where
    Python's raises [OverflowError]. *)
Definition xq_pow (x : xq) (n : Z) : option xq :=
  if (n =? 0)%Z then Some (Fin 1)
  else match x with
       | Fin q => if Qeq_bool q 0 && (n <? 0)%Z then None
                  else Some (fin (q ^ n))
       | PInf => Some (if (n <? 0)%Z then Fin 0 else PInf)
       | NInf => Some (if (n <? 0)%Z then Fin 0
                       else if Z.odd n then NInf else PInf)
       | NaN => Some NaN
       end.

#[export] Instance xq_Arith : Arith xq := {
  of_Z z := Fin (inject_Z z);
  add := xq_add;
  sub := xq_sub;
  mul := xq_mul;
  div := xq_div;
  absolute := xq_abs;
  missing := NaN
}.

#[export] Instance xq_Power : Power xq := {
  power x n := match xq_pow x n with
               | Some y => PowValue y
               | None => PowZeroDivision
               end
}.

(** ** Binary64 arithmetic *)

(** An integer literal as a float (exact below 2^53). *)
Definition float_of_Z (z : Z) : float :=
  match z with
  | Z0 => PrimFloat.zero
  | Zpos _ => PrimFloat.of_uint63 (Uint63.of_Z z)
  | Zneg p => PrimFloat.opp (PrimFloat.of_uint63 (Uint63.of_Z (Zpos p)))
  end.

#[export] Instance float_Arith : Arith float := {
  of_Z := float_of_Z;
  add := PrimFloat.add;
  sub := PrimFloat.sub;
  mul := PrimFloat.mul;
  div := PrimFloat.div;
  absolute := PrimFloat.abs;
  missing := PrimFloat.nan
}.

(** The IEEE class of a float, read off its sign, mantissa and exponent. *)
Definition float_is_nan (x : float) : bool :=
  match Prim2SF x with S754_nan => true | _ => false end.

Definition float_is_infinite (x : float) : bool :=
  match Prim2SF x with S754_infinity _ => true | _ => false end.

Definition float_is_zero (x : float) : bool :=
  match Prim2SF x with S754_zero _ => true | _ => false end.

Definition float_is_finite (x : float) : bool :=
  match Prim2SF x with
  | S754_zero _ | S754_finite _ _ _ => true
  | S754_infinity _ | S754_nan => false
  end.

(** The rational a finite float stands for. *)
Definition float_to_Q (x : float) : option Q :=
  match Prim2SF x with
  | S754_zero _ => Some 0%Q
  | S754_finite s m e =>
      Some ((if s then inject_Z (Zneg m) else inject_Z (Zpos m))
            * Qpower 2 e)%Q
  | S754_infinity _ | S754_nan => None
  end.

(** *** Python's [float ** int]

    CPython's [float_pow] converts the int to a double ([OverflowError] when
    it is too large), settles the special cases itself (anything to the power
    0 is 1, a NaN base gives NaN, an infinite base gives an infinity or a
    zero, a zero base raises [ZeroDivisionError] at a negative exponent, and
    a base of magnitude 1 gives +1 or -1), and hands the rest to C's [pow]:
    where that overflows Python raises [OverflowError], where it underflows
    Python returns the zero or subnormal it gave.  C's [pow] is taken as
    correctly rounded (round to nearest, ties to even, of the exact power). *)

(** [float(n)] for an int [n]. *)
Definition float_of_int (n : Z) : spec_float :=
  binary_normalize prec emax n 0 false.

(** The integer a finite float holds, for the floats that [float_of_int]
    yields. *)
Definition SF_int_value (x : spec_float) : Z :=
  match x with
  | S754_finite s m e =>
      let v := match e with
               | Z0 => Zpos m
               | Zpos _ => Z.shiftl (Zpos m) e
               | Zneg p => Z.shiftr (Zpos m) (Zpos p)
               end in
      if s then (- v)%Z else v
  | _ => 0%Z
  end.

(** [(m 2^e) ^ w] rounded to binary64, for an integer [w] other than 0. *)
Definition rounded_power (m : positive) (e : Z) (w : Z) : spec_float :=
  match w with
  | Z0 => S754_finite false 1 0
  | Zpos p => binary_normalize prec emax (Zpos (Pos.pow m p)) (e * w) false
  | Zneg p => SFdiv prec emax (S754_finite false 1 0)
                (S754_finite false (Pos.pow m p) (e * Zpos p))
  end.

Definition py_float_pow (x : float) (n : Z) : pow_result float :=
  match float_of_int n with
  | S754_infinity _ | S754_nan => PowOverflow
  | S754_zero _ => PowValue PrimFloat.one
  | S754_finite _ _ _ as iw =>
      let w := SF_int_value iw in
      match Prim2SF x with
      | S754_nan => PowValue x
      | S754_infinity _ =>
          PowValue (if (0 <? w)%Z
                    then (if Z.odd w then x else PrimFloat.abs x)
                    else (if Z.odd w
                          then (if PrimFloat.get_sign x
                                then PrimFloat.neg_zero else PrimFloat.zero)
                          else PrimFloat.zero))
      | S754_zero _ =>
          if (w <? 0)%Z then PowZeroDivision
          else PowValue (if Z.odd w then x else PrimFloat.zero)
      | S754_finite s m e =>
          let negate_result := s && Z.odd w in
          if PrimFloat.eqb (PrimFloat.abs x) PrimFloat.one
          then PowValue (if negate_result then PrimFloat.opp PrimFloat.one
                         else PrimFloat.one)
          else match rounded_power m e w with
               | S754_infinity _ => PowOverflow
               | ix => PowValue (if negate_result
                                 then PrimFloat.opp (SF2Prim ix)
                                 else SF2Prim ix)
               end
      end
  end.

#[export] Instance float_Power : Power float := {
  power := py_float_pow
}.

(** ** Worked scenarios *)

(** A table with one row per line item; [periods] are its column labels. *)
Definition table {num} (periods : list string)
    (items : list (string * list num)) : DataFrame num :=
  {| columns := periods; rows := items |}.

Definition empty_table {num} : DataFrame num := table [] [].

(** Income statement 2024: revenue 100, net income 20; 2023: 80 and 10.
    Balance sheet 2024: assets 200, equity 100, debt 50.  (Were the cells
    read as int64, their differences are exact and their true division gives
    the same binary64 quotients.) *)
Definition scenario_store {num} `{Arith num} : FundamentalAnalyzer num :=
  {| ticker := "DEMO";
     income_stmt :=
       table ["2024"; "2023"]
         [ ("Total Revenue", [of_Z 100; of_Z 80]);
           ("Net Income", [of_Z 20; of_Z 10]) ];
     balance_sheet :=
       table ["2024"]
         [ ("Total Assets", [of_Z 200]);
           ("Stockholders Equity", [of_Z 100]);
           ("Total Debt", [of_Z 50]) ];
     cashflow := empty_table |}.

(** Cash flow 2024: operating cash flow 150, capital expenditure -30. *)
Definition scenario_cashflow : FundamentalAnalyzer xq :=
  {| ticker := "DEMO";
     income_stmt := empty_table;
     balance_sheet := empty_table;
     cashflow :=
       table ["2024"]
         [ ("Operating Cash Flow", [Fin 150]);
           ("Capital Expenditure", [Fin (-30)]) ] |}.

(** Modelled from the spec: the reference fixed-point calculation the
    scenario of section 8 compares against is not part of the repository.  It
    evaluates the same formula on integers scaled by 10^9, every product and
    quotient truncated to nine decimals. *)
Definition fx_scale : Z := 1000000000.
Definition fx_of_Q (q : Q) : Z := (Qnum q * fx_scale / Zpos (Qden q))%Z.
Definition fx_to_Q (z : Z) : Q := inject_Z z / inject_Z fx_scale.
Definition fx_mul (a b : Z) : Z := (a * b / fx_scale)%Z.
Definition fx_div (a b : Z) : Z := (a * fx_scale / b)%Z.

Fixpoint fx_pow (x : Z) (n : nat) : Z :=
  match n with
  | O => fx_scale
  | S k => fx_mul (fx_pow x k) x
  end.

Fixpoint fx_projected_sum (fcf0 g d : Z) (n : nat) : Z :=
  match n with
  | O => 0%Z
  | S k => (fx_projected_sum fcf0 g d k
            + fx_div (fx_mul fcf0 (fx_pow (fx_scale + g) (S k)))
                     (fx_pow (fx_scale + d) (S k)))%Z
  end.

Definition fx_reference_ev (fcf0 g d : Q) (n : nat) : Q :=
  let f := fx_of_Q fcf0 in
  let g' := fx_of_Q g in
  let d' := fx_of_Q d in
  fx_to_Q
    (fx_projected_sum f g' d' n
     + fx_div (fx_div (fx_mul f (fx_pow (fx_scale + g') (S n))) (d' - g'))
              (fx_pow (fx_scale + d') n))%Z.

(** ** Reading a result *)

(** The number stored under [key] when the call returned a dict holding one. *)
Definition returned_number {num} (key : string) (m : M (dict num))
  : option num :=
  match result m with
  | Return d => match dict_get key d with
                | Some (VNum x) => Some x
                | _ => None
                end
  | Raise _ => None
  end.

(** The value of line item [row] in the table's own latest period (its
    column 0), whatever that column is labelled. *)
Definition latest_value {num} `{Arith num} (df : DataFrame num) (row : string)
  : option num :=
  match columns df, row_values row (rows df) with
  | _ :: _, Some vs => Some (nth 0 vs missing)
  | _, _ => None
  end.

(** What the handler of [calculate_profitability_ratios] prints for the
    missing label [e]. *)
Definition profitability_diagnostic {num} (self : FundamentalAnalyzer num)
    (e : string) : list line :=
  [ [Lit "Warning: Could not find "; ReprLabel e;
     Lit ". Check row names in CSV."];
    [Lit (nl ++ "Available Income Statement rows:")];
    [ReprLabels (head10 (index (income_stmt self)))];
    [Lit (nl ++ "Available Balance Sheet rows:")];
    [ReprLabels (head10 (index (balance_sheet self)))] ].

(** The three profitability entries computed from the four figures. *)
Definition profitability_entries {num} `{Arith num}
    (revenue net_income total_assets shareholders_equity : num) : dict num :=
  [ ("Net Profit Margin (%)", VNum ((net_income / revenue) * of_Z 100)%num);
    ("ROA (Return on Assets %)",
     VNum ((net_income / total_assets) * of_Z 100)%num);
    ("ROE (Return on Equity %)",
     VNum ((net_income / shareholders_equity) * of_Z 100)%num) ].

(** The base cash flow of a valuation is [v]: the selection step settles on
    [v], and the call returns a dict whose 'Current FCF' is [v] unless [**]
    raises one of its two exceptions. *)
Definition base_fcf_is {num} `{Arith num} `{Power num}
    (self : FundamentalAnalyzer num) (g d : num) (years : Z) (v : num)
  : Prop :=
  dcf_base_fcf self = ret (Some v) /\
  ((exists m, simple_dcf_valuation self g d years = ret m /\
              dict_get "Current FCF" m = Some (VNum v)) \/
   simple_dcf_valuation self g d years = raise ZeroDivisionError \/
   simple_dcf_valuation self g d years = raise OverflowError).

(** ** Stores used as examples *)

Definition store {num} (income balance cash : DataFrame num)
  : FundamentalAnalyzer num :=
  {| ticker := "DEMO"; income_stmt := income; balance_sheet := balance;
     cashflow := cash |}.

(** Both statements carry the four profitability items in their own latest
    period, but the periods are labelled differently. *)
Definition mismatched_store : FundamentalAnalyzer xq :=
  store (table ["2024"] [ ("Total Revenue", [Fin 100]);
                          ("Net Income", [Fin 20]) ])
        (table ["2023"] [ ("Total Assets", [Fin 200]);
                          ("Stockholders Equity", [Fin 100]) ])
        empty_table.

(** The income statement lacks 'Net Income'. *)
Definition missing_item_store : FundamentalAnalyzer xq :=
  store (table ["2024"] [ ("Total Revenue", [Fin 100]) ])
        (table ["2024"] [ ("Total Assets", [Fin 200]);
                          ("Stockholders Equity", [Fin 100]) ])
        empty_table.

(** One reporting period only. *)
Definition single_period_store : FundamentalAnalyzer xq :=
  store (table ["2024"] [ ("Total Revenue", [Fin 100]);
                          ("Net Income", [Fin 20]) ])
        (table ["2024"] [ ("Total Assets", [Fin 200]);
                          ("Stockholders Equity", [Fin 100]) ])
        (table ["2024"] [ ("Free Cash Flow", [Fin 200]);
                          ("Operating Cash Flow", [Fin 150]) ]).

(** Line items but no reporting period at all. *)
Definition no_period_store : FundamentalAnalyzer xq :=
  store (table [] [ ("Total Revenue", []); ("Net Income", []) ])
        (table [] [ ("Total Assets", []); ("Stockholders Equity", []) ])
        (table [] [ ("Free Cash Flow", []) ]).

(** A cash-flow statement with neither of the two rows the valuation
    looks for. *)
Definition no_cash_rows_store : FundamentalAnalyzer xq :=
  store empty_table empty_table
        (table ["2024"] [ ("Net Income", [Fin 20]);
                          ("Depreciation", [Fin 5]) ]).

(** ** Cash-flow statements with float64 cells *)

Definition cashflow_store (items : list (string * list float))
  : FundamentalAnalyzer float :=
  store empty_table empty_table (table ["2024"] items).

(** Operating cash flow 150, capital expenditure -30. *)
Definition scenario_cashflow_f64 : FundamentalAnalyzer float :=
  cashflow_store [ ("Operating Cash Flow", [150%float]);
                   ("Capital Expenditure", [(-30)%float]) ].

(** A reported free cash flow of 150. *)
Definition fcf_150_store : FundamentalAnalyzer float :=
  cashflow_store [ ("Free Cash Flow", [150%float]) ].


Definition empty_fcf_store : FundamentalAnalyzer float :=
  cashflow_store [ ("Free Cash Flow", []) ].

(** A start-up year in float64 cells: no revenue and no equity yet, a loss
    of 5, assets of 50. *)
Definition zero_revenue_store : FundamentalAnalyzer float :=
  store (table ["2024"] [ ("Total Revenue", [0%float]);
                          ("Net Income", [(-5)%float]) ])
        (table ["2024"] [ ("Total Assets", [50%float]);
                          ("Stockholders Equity", [0%float]) ])
        empty_table.

(** ** The aggregate report *)

(** The float literals [0.05] and [0.10] that [simple_dcf_valuation] takes
    as default rates; its default horizon is the int 5. *)
Class Defaults (num : Type) : Type := {
  default_growth_rate : num;
  default_discount_rate : num
}.

Definition default_years : Z := 5.

#[export] Instance xq_Defaults : Defaults xq := {
  default_growth_rate := Fin (5 # 100);
  default_discount_rate := Fin (10 # 100)
}.

(** The binary64 numbers nearest to 0.05 and 0.10, as Python reads the
    literals. *)
#[export] Instance float_Defaults : Defaults float := {
  default_growth_rate := 0x1.999999999999ap-5%float;
  default_discount_rate := 0x1.999999999999ap-4%float
}.

(** [generate_analysis_summary] (lines 291-320): the four calculators run in
    order, the valuation with its default arguments. *)
Definition generate_analysis_summary {num : Type}
    `{Arith num} `{Power num} `{Defaults num}
    (self : FundamentalAnalyzer num) : M (dict num) :=
  profitability <- calculate_profitability_ratios self ;;
  leverage <- calculate_leverage_ratios self ;;
  growth <- calculate_growth_metrics self ;;
  valuation <- simple_dcf_valuation self default_growth_rate
                 default_discount_rate default_years ;;
  let summary :=
    [ ("Ticker", VStr (ticker self));
      ("Profitability Ratios", VDict profitability);
      ("Leverage Ratios", VDict leverage);
      ("Growth Metrics", VDict growth);
      ("DCF Valuation", VDict valuation) ] in
  ret summary.

(** What the handler of [calculate_leverage_ratios] prints for the missing
    label [e]. *)
Definition leverage_diagnostic (e : string) : list line :=
  [ [Lit "Warning: Could not find "; ReprLabel e] ].

(** ** Further example stores *)

(** Two periods, but the income statement lacks 'Net Income'. *)
Definition growth_missing_store : FundamentalAnalyzer xq :=
  store (table ["2024"; "2023"] [ ("Total Revenue", [Fin 100; Fin 80]) ])
        empty_table empty_table.

(** A loss that shrinks from 20 to 10, on flat revenue; and no revenue and no
    equity the year after a start-up year. *)
Definition loss_store : FundamentalAnalyzer xq :=
  store (table ["2024"; "2023"]
           [ ("Total Revenue", [Fin 100; Fin 100]);
             ("Net Income", [Fin (-10); Fin (-20)]) ])
        empty_table empty_table.

Definition zero_base_store : FundamentalAnalyzer xq :=
  store (table ["2024"; "2023"]
           [ ("Total Revenue", [Fin 0; Fin 0]);
             ("Net Income", [Fin (-5); Fin 0]) ])
        (table ["2024"]
           [ ("Total Assets", [Fin 50]);
             ("Stockholders Equity", [Fin 0]);
             ("Total Debt", [Fin 50]) ])
        empty_table.

(** Rows whose latest cell is empty: the 'Net Income' and 'Free Cash Flow'
    lines are there, their values are not. *)
Definition empty_cell_store : FundamentalAnalyzer xq :=
  store (table ["2024"] [ ("Total Revenue", [Fin 100]);
                          ("Net Income", []) ])
        (table ["2024"] [ ("Total Assets", [Fin 200]);
                          ("Stockholders Equity", [Fin 100]) ])
        (table ["2024"] [ ("Free Cash Flow", []);
                          ("Operating Cash Flow", [Fin 150]) ]).

(** ** The closed form of the valuation *)

Section ClosedForm.
Context {num : Type} `{Arith num} `{Power num}.

(** The value of [x ** n] where it has one. *)
Definition power_value (x : num) (n : Z) : option num :=
  match power x n with
  | PowValue y => Some y
  | PowZeroDivision | PowOverflow => None
  end.

(** The present value of year [y], FCF0 (1+g)^y / (1+d)^y, each operation
    in the arithmetic of the interface and in the order written. *)
Definition closed_form_present_value (fcf0 g d : num) (y : Z) : option num :=
  match power_value (of_Z 1 + g)%num y, power_value (of_Z 1 + d)%num y with
  | Some a, Some b => Some ((fcf0 * a) / b)%num
  | _, _ => None
  end.

(** The sum over y = 1..n of the present values, added from the left to the
    integer 0. *)
Fixpoint closed_form_projected (fcf0 g d : num) (n : nat) : option num :=
  match n with
  | O => Some (of_Z 0)
  | S k =>
      match closed_form_projected fcf0 g d k,
            closed_form_present_value fcf0 g d (Z.of_nat (S k)) with
      | Some s, Some pv => Some (s + pv)%num
      | _, _ => None
      end
  end.

(** The discounted terminal value, the terminal-year cash flow being
    FCF0 (1+g)^N (1+g). *)
Definition closed_form_terminal (fcf0 g d : num) (N : Z) : option num :=
  match power_value (of_Z 1 + g)%num N, power_value (of_Z 1 + d)%num N with
  | Some a, Some b => Some ((((fcf0 * a) * (of_Z 1 + g)) / (d - g)) / b)%num
  | _, _ => None
  end.

Definition closed_form_ev (fcf0 g d : num) (N : Z) : option num :=
  match closed_form_projected fcf0 g d (Z.to_nat N),
        closed_form_terminal fcf0 g d N with
  | Some s, Some t => Some (s + t)%num
  | _, _ => None
  end.

(** Modelled from the spec: the discounted terminal value with the
    terminal-year cash flow FCF0 (1+g)^(N+1), as step 3 of section 4.4 words
    it. *)
Definition spec_terminal (fcf0 g d : num) (N : Z) : option num :=
  match power_value (of_Z 1 + g)%num (N + 1),
        power_value (of_Z 1 + d)%num N with
  | Some a, Some b => Some (((fcf0 * a) / (d - g)) / b)%num
  | _, _ => None
  end.

Definition spec_ev (fcf0 g d : num) (N : Z) : option num :=
  match closed_form_projected fcf0 g d (Z.to_nat N),
        spec_terminal fcf0 g d N with
  | Some s, Some t => Some (s + t)%num
  | _, _ => None
  end.
End ClosedForm.

(** [q] is within the relative error [eps] of [ref]. *)
Definition within_relative (eps q ref : Q) : Prop :=
  (Qabs (q - ref) <= eps * Qabs ref)%Q.

(** ** numpy's floating-point warnings

    The cells are numpy float64 scalars, so every [* / + -] that involves the
    base cash flow is numpy's: its result is the IEEE one, and under numpy's
    default error state an operation that raises the IEEE divide-by-zero,
    overflow or invalid flag emits a [RuntimeWarning] (underflow and inexact
    are ignored).  The rates are Python floats: [1 + g], [d - g] and
    [g * 100] are Python's own operations and warn of nothing, and [**]
    returns or raises. *)

Inductive np_warning : Type :=
| DivideByZero     (* divide by zero encountered *)
| Overflow         (* overflow encountered *)
| Invalid.         (* invalid value encountered *)

Inductive np_op : Type := NpAdd | NpSub | NpMul | NpDiv.

Definition np_apply (op : np_op) (x y : float) : float :=
  match op with
  | NpAdd => PrimFloat.add x y
  | NpSub => PrimFloat.sub x y
  | NpMul => PrimFloat.mul x y
  | NpDiv => PrimFloat.div x y
  end.

(** The flag one operation raises: invalid when a NaN comes out of operands
    that are not NaN; when an infinity comes out of finite operands,
    divide-by-zero for a zero divisor and overflow otherwise. *)
Definition np_flag (op : np_op) (x y : float) : option np_warning :=
  let r := np_apply op x y in
  if float_is_nan r then
    if float_is_nan x || float_is_nan y then None else Some Invalid
  else if float_is_infinite r && float_is_finite x && float_is_finite y then
    match op with
    | NpDiv => Some (if float_is_zero y then DivideByZero else Overflow)
    | _ => Some Overflow
    end
  else None.

(** A computation on numpy scalars: the warnings it emitted, in order, and
    how it ended. *)
Definition NP (A : Type) : Type := (list np_warning * outcome A)%type.

Definition np_ret {A} (a : A) : NP A := ([], Return a).

Definition np_bind {A B} (m : NP A) (f : A -> NP B) : NP B :=
  match m with
  | (w, Return a) => let (w', r) := f a in (w ++ w', r)
  | (w, Raise e) => (w, Raise e)
  end.

Declare Scope np_scope.
Delimit Scope np_scope with np.
Notation "x <- c1 ;; c2" := (np_bind c1 (fun x => c2))
  (at level 61, c1 at next level, right associativity) : np_scope.

Definition warnings {A} (m : NP A) : list np_warning := fst m.

Definition np_binop (op : np_op) (x y : float) : NP float :=
  (match np_flag op x y with Some w => [w] | None => [] end,
   Return (np_apply op x y)).

Section Warnings.
Context `{Power float}.

Definition np_pow (x : float) (n : Z) : NP float := ([], result (pow x n)).

(** Lines 255-259 with their warnings. *)
Definition np_dcf_present_value (fcf growth_rate discount_rate : float)
    (year : Z) : NP float :=
  (g <- np_pow (of_Z 1 + growth_rate)%num year ;;
   future_fcf <- np_binop NpMul fcf g ;;
   d <- np_pow (of_Z 1 + discount_rate)%num year ;;
   np_binop NpDiv future_fcf d)%np.

Fixpoint np_dcf_loop (fcf growth_rate discount_rate : float)
    (years : list Z) (projected_fcf : list float) : NP (list float) :=
  match years with
  | [] => np_ret projected_fcf
  | year :: rest =>
      (pv <- np_dcf_present_value fcf growth_rate discount_rate year ;;
       np_dcf_loop fcf growth_rate discount_rate rest
         (projected_fcf ++ [pv]))%np
  end.

(** [sum(l)] on numpy scalars, from the int 0. *)
Definition np_sum (l : list float) : NP float :=
  fold_left (fun acc x => (s <- acc ;; np_binop NpAdd s x)%np) l
    (np_ret (of_Z 0)).

(** Lines 252-283 with their warnings; [sum(projected_fcf)] is evaluated at
    line 271 and again at line 276. *)
Definition np_dcf_project (fcf growth_rate discount_rate : float)
    (years : Z) : NP (dict float) :=
  (projected_fcf <-
     np_dcf_loop fcf growth_rate discount_rate (range1 years) [] ;;
   g <- np_pow (of_Z 1 + growth_rate)%num years ;;
   grown <- np_binop NpMul fcf g ;;
   terminal_fcf <- np_binop NpMul grown (of_Z 1 + growth_rate)%num ;;
   terminal_value <-
     np_binop NpDiv terminal_fcf (discount_rate - growth_rate)%num ;;
   d <- np_pow (of_Z 1 + discount_rate)%num years ;;
   pv_terminal <- np_binop NpDiv terminal_value d ;;
   total <- np_sum projected_fcf ;;
   enterprise_value <- np_binop NpAdd total pv_terminal ;;
   projected <- np_sum projected_fcf ;;
   np_ret
     [ ("Enterprise Value", VNum enterprise_value);
       ("Current FCF", VNum fcf);
       ("Projected FCF (PV)", VNum projected);
       ("Terminal Value (PV)", VNum pv_terminal);
       ("Assumptions",
        VDict [ ("Growth Rate", VPercent (growth_rate * of_Z 100)%num);
                ("Discount Rate", VPercent (discount_rate * of_Z 100)%num);
                ("Years", VInt years) ]) ])%np.
End Warnings.

(** * Properties *)

(** ** The effect monad *)

Lemma bind_ret {A B} (a : A) (f : A -> M B) : bind (ret a) f = f a.
Proof. unfold bind, ret. destruct (f a); reflexivity. Qed.

Lemma bind_raise {A B} (e : exn) (f : A -> M B) : bind (raise e) f = raise e.
Proof. reflexivity. Qed.

Lemma bind_print {B} (l : line) (m : M B) :
  bind (print l) (fun _ => m) = (l :: output m, result m).
Proof. destruct m; reflexivity. Qed.

Lemma try_ret {A} (a : A) (h : string -> M A) :
  try_except_KeyError (ret a) h = ret a.
Proof. reflexivity. Qed.

Lemma try_KeyError {A} (k : string) (h : string -> M A) :
  try_except_KeyError (raise (KeyError k)) h = h k.
Proof. unfold try_except_KeyError, raise. destruct (h k); reflexivity. Qed.

(** ** Label lookup *)

Section LookupFacts.
Context {num : Type} `{Arith num}.

Lemma getitem_head (l : string) (rest : list string) :
  getitem (l :: rest) 0 = ret l.
Proof. reflexivity. Qed.

Lemma getitem_empty (i : nat) : getitem [] i = raise IndexError.
Proof. destruct i; reflexivity. Qed.

Lemma position_contains (label : string) (l : list string) :
  position label l = None <-> contains l label = false.
Proof.
  induction l as [|x l IH]; simpl; [tauto|].
  destruct (String.eqb label x); simpl.
  - split; discriminate.
  - rewrite <- IH. destruct (position label l); simpl; split; congruence.
Qed.

Lemma row_values_contains (label : string) (df : DataFrame num) :
  row_values label (rows df) = None <-> contains (index df) label = false.
Proof.
  unfold index. induction (rows df) as [|[x vs] rs IH]; simpl; [tauto|].
  destruct (String.eqb label x); simpl; [split; discriminate | exact IH].
Qed.

(** A lookup returns a cell or raises [KeyError]; it prints nothing. *)
Lemma loc_outcome (df : DataFrame num) (row col : string) :
  (exists v, loc df row col = ret v) \/
  (exists k, loc df row col = raise (KeyError k)).
Proof.
  unfold loc. destruct (position col (columns df)); [|right; eauto].
  destruct (row_values row (rows df)); [left|right]; eauto.
Qed.

Lemma loc_missing_row (df : DataFrame num) (row col : string) :
  contains (index df) row = false ->
  exists k, loc df row col = raise (KeyError k).
Proof.
  intros Hr. apply row_values_contains in Hr. unfold loc. rewrite Hr.
  destruct (position col (columns df)); eauto.
Qed.

Lemma loc_missing_column (df : DataFrame num) (row col : string) :
  contains (columns df) col = false ->
  loc df row col = raise (KeyError col).
Proof.
  intros Hc. apply position_contains in Hc. unfold loc. now rewrite Hc.
Qed.

Lemma loc_present (df : DataFrame num) (row col : string) :
  contains (index df) row = true ->
  contains (columns df) col = true ->
  exists v, loc df row col = ret v.
Proof.
  intros Hr Hc. unfold loc.
  destruct (position col (columns df)) eqn:Ep.
  - destruct (row_values row (rows df)) eqn:Er; [eauto|].
    apply row_values_contains in Er. congruence.
  - apply position_contains in Ep. congruence.
Qed.

Lemma contains_head (l : string) (rest : list string) :
  contains (l :: rest) l = true.
Proof. unfold contains. simpl. now rewrite String.eqb_refl. Qed.
End LookupFacts.

(** ** Profitability, leverage and growth *)

Section CalculatorFacts.
Context {num : Type} `{Arith num}.
Variable self : FundamentalAnalyzer num.

Lemma try_alternative_names_returns (latest : string) (rest : list string) :
  columns (income_stmt self) = latest :: rest ->
  _try_alternative_names self
  = (tl (profitability_diagnostic self latest), Return []).
Proof.
  intros Hc. unfold _try_alternative_names. rewrite Hc. reflexivity.
Qed.

(** With a latest period, the profitability calculator either finds its
    four figures under that period's label and returns the three ratios,
    or prints its diagnostic and returns the empty dict. *)
Lemma profitability_cases (latest : string) (rest : list string) :
  columns (income_stmt self) = latest :: rest ->
  (exists revenue net_income total_assets shareholders_equity,
      loc (income_stmt self) "Total Revenue" latest = ret revenue /\
      loc (income_stmt self) "Net Income" latest = ret net_income /\
      loc (balance_sheet self) "Total Assets" latest = ret total_assets /\
      loc (balance_sheet self) "Stockholders Equity" latest
      = ret shareholders_equity /\
      calculate_profitability_ratios self
      = ([], Return (profitability_entries revenue net_income total_assets
                       shareholders_equity)))
  \/
  (exists k,
      (exists row df, loc df row latest = raise (KeyError k) /\
         ((df = income_stmt self /\
           (row = "Total Revenue" \/ row = "Net Income")) \/
          (df = balance_sheet self /\
           (row = "Total Assets" \/ row = "Stockholders Equity")))) /\
      calculate_profitability_ratios self
      = (profitability_diagnostic self k, Return [])).
Proof.
  intros Hc. unfold calculate_profitability_ratios.
  rewrite Hc, getitem_head, bind_ret.
  pose proof (try_alternative_names_returns latest rest Hc) as Halt.
  destruct (loc_outcome (income_stmt self) "Total Revenue" latest)
    as [[v1 E1]|[k E1]].
  2:{ right. exists k. split; [eauto 10|].
      rewrite E1, bind_raise, try_KeyError, bind_print, Halt.
      reflexivity. }
  destruct (loc_outcome (income_stmt self) "Net Income" latest)
    as [[v2 E2]|[k E2]].
  2:{ right. exists k. split; [eauto 10|].
      rewrite E1, bind_ret, E2, bind_raise, try_KeyError, bind_print, Halt.
      reflexivity. }
  destruct (loc_outcome (balance_sheet self) "Total Assets" latest)
    as [[v3 E3]|[k E3]].
  2:{ right. exists k. split; [eauto 10|].
      rewrite E1, bind_ret, E2, bind_ret, E3, bind_raise, try_KeyError,
        bind_print, Halt.
      reflexivity. }
  destruct (loc_outcome (balance_sheet self) "Stockholders Equity" latest)
    as [[v4 E4]|[k E4]].
  2:{ right. exists k. split; [eauto 10|].
      rewrite E1, bind_ret, E2, bind_ret, E3, bind_ret, E4, bind_raise,
        try_KeyError, bind_print, Halt.
      reflexivity. }
  left. exists v1, v2, v3, v4. repeat split; try assumption.
  rewrite E1, bind_ret, E2, bind_ret, E3, bind_ret, E4, bind_ret.
  reflexivity.
Qed.
End CalculatorFacts.

(** ** Valuation: control flow *)

Section ValuationFacts.
Context {num : Type} `{Arith num} `{Power num}.
Variable self : FundamentalAnalyzer num.

(** [**] yields a number or raises one of its two exceptions; it prints
    nothing. *)
Lemma pow_outcome (x : num) (n : Z) :
  (exists y, power x n = PowValue y /\ pow x n = ret y) \/ pow_raises (pow x n).
Proof.
  unfold pow, pow_raises. destruct (power x n); eauto.
Qed.

Lemma bind_pow_raises {A B} (m : M A) (f : A -> M B) :
  pow_raises m -> pow_raises (bind m f).
Proof. intros [-> | ->]; [left | right]; reflexivity. Qed.

Lemma dcf_present_value_outcome (fcf g d : num) (year : Z) :
  (exists pv, dcf_present_value fcf g d year = ret pv) \/
  pow_raises (dcf_present_value fcf g d year).
Proof.
  unfold dcf_present_value.
  destruct (pow_outcome (of_Z 1 + g)%num year) as [(a & _ & ->)|Hr];
    [rewrite bind_ret | right; now apply bind_pow_raises].
  destruct (pow_outcome (of_Z 1 + d)%num year) as [(b & _ & ->)|Hr];
    [rewrite bind_ret; eauto | right; now apply bind_pow_raises].
Qed.

Lemma dcf_loop_outcome (fcf g d : num) (years : list Z) :
  forall projected,
    (exists l, dcf_loop fcf g d years projected = ret l) \/
    pow_raises (dcf_loop fcf g d years projected).
Proof.
  induction years as [|y ys IH]; intros projected; simpl; [eauto|].
  destruct (dcf_present_value_outcome fcf g d y) as [[pv ->]|Hr];
    [rewrite bind_ret; apply IH | right; now apply bind_pow_raises].
Qed.

(** The projection prints nothing and raises nothing but what [**] raises:
    it returns the five entries, the enterprise value being the sum of the
    two parts returned next to it. *)
Lemma dcf_project_shape (fcf g d : num) (years : Z) :
  (exists projected terminal,
      dcf_project fcf g d years
      = ret [ ("Enterprise Value", VNum (projected + terminal)%num);
              ("Current FCF", VNum fcf);
              ("Projected FCF (PV)", VNum projected);
              ("Terminal Value (PV)", VNum terminal);
              ("Assumptions",
               VDict [ ("Growth Rate", VPercent (g * of_Z 100)%num);
                       ("Discount Rate", VPercent (d * of_Z 100)%num);
                       ("Years", VInt years) ]) ]) \/
  pow_raises (dcf_project fcf g d years).
Proof.
  unfold dcf_project.
  destruct (dcf_loop_outcome fcf g d (range1 years) []) as [[l ->]|Hr];
    [rewrite bind_ret | right; now apply bind_pow_raises].
  destruct (pow_outcome (of_Z 1 + g)%num years) as [(a & _ & ->)|Hr];
    [rewrite bind_ret | right; now apply bind_pow_raises].
  destruct (pow_outcome (of_Z 1 + d)%num years) as [(b & _ & ->)|Hr];
    [rewrite bind_ret | right; now apply bind_pow_raises].
  left. eauto.
Qed.

(** Where every [**] of the run returns, so does the projection. *)
Lemma dcf_loop_returns (fcf g d : num) (years : list Z) :
  (forall y, In y years ->
     exists a b, pow (of_Z 1 + g)%num y = ret a /\
                 pow (of_Z 1 + d)%num y = ret b) ->
  forall projected, exists l, dcf_loop fcf g d years projected = ret l.
Proof.
  induction years as [|y ys IH]; intros Hp projected; simpl; [eauto|].
  destruct (Hp y (or_introl eq_refl)) as (a & b & Ea & Eb).
  unfold dcf_present_value. rewrite Ea, bind_ret, Eb, !bind_ret.
  apply IH. intros z Hz. apply Hp. now right.
Qed.

Lemma dcf_project_returns (fcf g d : num) (years : Z) :
  (forall y, In y (years :: range1 years) ->
     exists a b, pow (of_Z 1 + g)%num y = ret a /\
                 pow (of_Z 1 + d)%num y = ret b) ->
  exists v, dcf_project fcf g d years = ret v.
Proof.
  intros Hp. unfold dcf_project.
  destruct (dcf_loop_returns fcf g d (range1 years)
              (fun y Hy => Hp y (or_intror Hy)) []) as [l ->].
  destruct (Hp years (or_introl eq_refl)) as (a & b & -> & ->).
  rewrite !bind_ret. eauto.
Qed.

Lemma range1_positive (years y : Z) : In y (range1 years) -> (1 <= y)%Z.
Proof.
  unfold range1. rewrite in_map_iff. intros (k & <- & Hk).
  apply in_seq in Hk. lia.
Qed.

(** Once the base cash flow is found the handler is out of play. *)
Lemma simple_dcf_of_base (fcf g d : num) (years : Z) :
  dcf_base_fcf self = ret (Some fcf) ->
  simple_dcf_valuation self g d years = dcf_project fcf g d years.
Proof.
  intros Hb. unfold simple_dcf_valuation. rewrite Hb, bind_ret.
  destruct (dcf_project_shape fcf g d years) as [(p & t & ->)|[-> | ->]];
    reflexivity.
Qed.

Lemma simple_dcf_no_periods (g d : num) (years : Z) :
  columns (cashflow self) = [] ->
  simple_dcf_valuation self g d years = raise IndexError.
Proof.
  intros Hc. unfold simple_dcf_valuation, dcf_base_fcf.
  rewrite Hc, getitem_empty. reflexivity.
Qed.

(** The three ways the base cash flow is settled (lines 239-249). *)
Lemma dcf_base_fcf_cases (latest : string) (rest : list string) :
  columns (cashflow self) = latest :: rest ->
  let has row := contains (index (cashflow self)) row in
  (has "Free Cash Flow" = true ->
   exists fcf, loc (cashflow self) "Free Cash Flow" latest = ret fcf /\
               dcf_base_fcf self = ret (Some fcf)) /\
  (has "Free Cash Flow" = false -> has "Operating Cash Flow" = true ->
   exists ocf, loc (cashflow self) "Operating Cash Flow" latest = ret ocf /\
     (has "Capital Expenditure" = true ->
      exists capex,
        loc (cashflow self) "Capital Expenditure" latest = ret capex /\
        dcf_base_fcf self = ret (Some (ocf - absolute capex)%num)) /\
     (has "Capital Expenditure" = false ->
      dcf_base_fcf self = ret (Some (ocf - of_Z 0)%num))) /\
  (has "Free Cash Flow" = false -> has "Operating Cash Flow" = false ->
   dcf_base_fcf self = ([[Lit "Cannot find cash flow data"]], Return None)).
Proof.
  intros Hc has. subst has. unfold dcf_base_fcf.
  rewrite Hc, getitem_head, bind_ret.
  assert (Hl : contains (columns (cashflow self)) latest = true)
    by (rewrite Hc; apply contains_head).
  repeat split.
  - intros Hf. rewrite Hf.
    destruct (loc_present (cashflow self) "Free Cash Flow" latest Hf Hl)
      as [v Ev].
    exists v. now rewrite Ev, bind_ret.
  - intros Hf Ho. rewrite Hf, Ho.
    destruct (loc_present (cashflow self) "Operating Cash Flow" latest Ho Hl)
      as [v Ev].
    exists v. split; [assumption|]. rewrite Ev, bind_ret. split.
    + intros Hx. rewrite Hx.
      destruct (loc_present (cashflow self) "Capital Expenditure" latest
                  Hx Hl) as [c Ec].
      exists c. now rewrite Ec, !bind_ret.
    + intros Hx. rewrite Hx. now rewrite bind_ret.
  - intros Hf Ho. now rewrite Hf, Ho.
Qed.

Lemma simple_dcf_no_cash_rows (latest : string) (rest : list string)
    (g d : num) (years : Z) :
  columns (cashflow self) = latest :: rest ->
  contains (index (cashflow self)) "Free Cash Flow" = false ->
  contains (index (cashflow self)) "Operating Cash Flow" = false ->
  simple_dcf_valuation self g d years
  = ([[Lit "Cannot find cash flow data"]], Return []).
Proof.
  intros Hc Hf Ho.
  destruct (dcf_base_fcf_cases latest rest Hc) as (_ & _ & Hn).
  unfold simple_dcf_valuation. now rewrite (Hn Hf Ho).
Qed.
End ValuationFacts.

(** ** Valuation: the closed form *)

Section ClosedFormFacts.
Context {num : Type} `{Arith num} `{Power num}.

Lemma pow_power_value (x : num) (n : Z) :
  match power_value x n with
  | Some y => pow x n = ret y
  | None => pow_raises (pow x n)
  end.
Proof.
  unfold power_value, pow, pow_raises. destruct (power x n); auto.
Qed.

Lemma dcf_present_value_closed_form (fcf g d : num) (y : Z) :
  match closed_form_present_value fcf g d y with
  | Some pv => dcf_present_value fcf g d y = ret pv
  | None => pow_raises (dcf_present_value fcf g d y)
  end.
Proof.
  unfold closed_form_present_value, dcf_present_value.
  generalize (pow_power_value (of_Z 1 + g)%num y).
  destruct (power_value (of_Z 1 + g)%num y) as [a|]; intros Ha;
    [|now apply bind_pow_raises].
  rewrite Ha, bind_ret.
  generalize (pow_power_value (of_Z 1 + d)%num y).
  destruct (power_value (of_Z 1 + d)%num y) as [b|]; intros Hb;
    [|now apply bind_pow_raises].
  now rewrite Hb, bind_ret.
Qed.

Lemma py_sum_snoc (l : list num) (x : num) :
  py_sum (l ++ [x]) = (py_sum l + x)%num.
Proof. unfold py_sum. now rewrite fold_left_app. Qed.

Lemma closed_form_projected_none (fcf g d : num) (k n : nat) :
  closed_form_projected fcf g d k = None ->
  closed_form_projected fcf g d (k + n) = None.
Proof.
  intros Hk. induction n as [|n IH].
  - now rewrite Nat.add_0_r.
  - rewrite Nat.add_succ_r. cbn [closed_form_projected]. now rewrite IH.
Qed.

(** The loop, entered with the first [k] present values in its list, leaves
    a list whose sum is the closed form's sum over 1..k+n. *)
Lemma dcf_loop_closed_form (fcf g d : num) (n : nat) :
  forall (k : nat) (acc : list num),
    closed_form_projected fcf g d k = Some (py_sum acc) ->
    match closed_form_projected fcf g d (k + n) with
    | Some s => exists l,
        dcf_loop fcf g d (map Z.of_nat (seq (S k) n)) acc = ret l /\
        py_sum l = s
    | None => pow_raises (dcf_loop fcf g d (map Z.of_nat (seq (S k) n)) acc)
    end.
Proof.
  induction n as [|n IH]; intros k acc Hk.
  - rewrite Nat.add_0_r, Hk. exists acc. now split.
  - rewrite Nat.add_succ_r, <- Nat.add_succ_l.
    cbn [seq map dcf_loop].
    generalize (dcf_present_value_closed_form fcf g d (Z.of_nat (S k))).
    destruct (closed_form_present_value fcf g d (Z.of_nat (S k)))
      as [pv|] eqn:Epv; intros Hpv.
    + rewrite Hpv, bind_ret. apply IH.
      cbn [closed_form_projected]. rewrite Hk, Epv. now rewrite py_sum_snoc.
    + rewrite closed_form_projected_none
        by (cbn [closed_form_projected]; now rewrite Hk, Epv).
      now apply bind_pow_raises.
Qed.

(** The projection returns the closed form wherever that has a value, and
    raises what [**] raises elsewhere. *)
Lemma dcf_project_closed_form (fcf g d : num) (N : Z) :
  match closed_form_ev fcf g d N with
  | Some v => exists m,
      dcf_project fcf g d N = ret m /\
      dict_get "Enterprise Value" m = Some (VNum v)
  | None => pow_raises (dcf_project fcf g d N)
  end.
Proof.
  unfold closed_form_ev, dcf_project, range1.
  generalize (dcf_loop_closed_form fcf g d (Z.to_nat N) 0 [] eq_refl).
  cbn [Nat.add].
  destruct (closed_form_projected fcf g d (Z.to_nat N)) as [s|];
    [intros (l & -> & <-) | intros Hr; now apply bind_pow_raises].
  rewrite bind_ret. unfold closed_form_terminal.
  generalize (pow_power_value (of_Z 1 + g)%num N).
  destruct (power_value (of_Z 1 + g)%num N) as [a|]; intros Ha;
    [|now apply bind_pow_raises].
  rewrite Ha, bind_ret.
  generalize (pow_power_value (of_Z 1 + d)%num N).
  destruct (power_value (of_Z 1 + d)%num N) as [b|]; intros Hb;
    [|now apply bind_pow_raises].
  rewrite Hb, bind_ret. eexists. split; reflexivity.
Qed.

(** The projection spelled out: the list the loop leaves and the two powers
    of the terminal step, or one of the exceptions of [**]. *)
Lemma dcf_project_parts (fcf g d : num) (N : Z) :
  pow_raises (dcf_project fcf g d N) \/
  exists l p q,
    dcf_loop fcf g d (range1 N) [] = ret l /\
    power (of_Z 1 + g)%num N = PowValue p /\
    power (of_Z 1 + d)%num N = PowValue q /\
    dcf_project fcf g d N
    = ret [ ("Enterprise Value",
             VNum (py_sum l
                   + (((fcf * p) * (of_Z 1 + g)) / (d - g)) / q)%num);
            ("Current FCF", VNum fcf);
            ("Projected FCF (PV)", VNum (py_sum l));
            ("Terminal Value (PV)",
             VNum ((((fcf * p) * (of_Z 1 + g)) / (d - g)) / q)%num);
            ("Assumptions",
             VDict [ ("Growth Rate", VPercent (g * of_Z 100)%num);
                     ("Discount Rate", VPercent (d * of_Z 100)%num);
                     ("Years", VInt N) ]) ].
Proof.
  unfold dcf_project.
  destruct (dcf_loop_outcome fcf g d (range1 N) []) as [[l El]|Hr];
    [rewrite El, bind_ret | left; now apply bind_pow_raises].
  destruct (pow_outcome (of_Z 1 + g)%num N) as [(p & Ep & ->)|Hr];
    [rewrite bind_ret | left; now apply bind_pow_raises].
  destruct (pow_outcome (of_Z 1 + d)%num N) as [(q & Eq & ->)|Hr];
    [rewrite bind_ret | left; now apply bind_pow_raises].
  right. exists l, p, q. repeat split; assumption.
Qed.
End ClosedFormFacts.

(** ** Binary64: zeros, infinities and NaN *)


Lemma float_div_zero_not_finite (x z : float) :
  float_is_zero z = true -> float_is_finite (PrimFloat.div x z) = false.
Proof.
  unfold float_is_zero, float_is_finite. rewrite div_spec.
  unfold SF64div, SFdiv.
  destruct (Prim2SF z); try discriminate. now destruct (Prim2SF x).
Qed.


Lemma float_mul_not_finite (x y : float) :
  float_is_finite x = false -> float_is_finite (PrimFloat.mul x y) = false.
Proof.
  unfold float_is_finite. rewrite mul_spec. unfold SF64mul, SFmul.
  destruct (Prim2SF x); try discriminate; now destruct (Prim2SF y).
Qed.


Lemma float_mul_nan (x y : float) :
  float_is_nan x = true -> float_is_nan (PrimFloat.mul x y) = true.
Proof.
  unfold float_is_nan. rewrite mul_spec. unfold SF64mul, SFmul.
  destruct (Prim2SF x); try discriminate. reflexivity.
Qed.

Lemma float_div_nan (x y : float) :
  float_is_nan x = true -> float_is_nan (PrimFloat.div x y) = true.
Proof.
  unfold float_is_nan. rewrite div_spec. unfold SF64div, SFdiv.
  destruct (Prim2SF x); try discriminate. reflexivity.
Qed.

Lemma float_add_nan_r (x y : float) :
  float_is_nan y = true -> float_is_nan (PrimFloat.add x y) = true.
Proof.
  unfold float_is_nan. rewrite add_spec. unfold SF64add, SFadd.
  destruct (Prim2SF y); try discriminate. now destruct (Prim2SF x).
Qed.

(** ** numpy's warnings *)

(** A division by zero is flagged when the dividend is finite (divide by
    zero, or invalid for 0/0) and raises no flag when it is an infinity or
    NaN. *)
Lemma np_flag_div_zero (x z : float) :
  float_is_zero z = true ->
  np_flag NpDiv x z
  = if float_is_finite x
    then Some (if float_is_zero x then Invalid else DivideByZero)
    else None.
Proof.
  unfold np_flag, np_apply, float_is_zero, float_is_finite, float_is_nan,
    float_is_infinite.
  rewrite div_spec. unfold SF64div, SFdiv.
  destruct (Prim2SF z); try discriminate. now destruct (Prim2SF x).
Qed.

(** An operation on a NaN raises no flag. *)
Lemma np_binop_nan_l (op : np_op) (x y : float) :
  float_is_nan x = true ->
  np_binop op x y = np_ret (np_apply op x y) /\
  float_is_nan (np_apply op x y) = true.
Proof.
  intros Hx.
  assert (Hr : float_is_nan (np_apply op x y) = true).
  { unfold float_is_nan in *. destruct op; cbn [np_apply];
      rewrite ?add_spec, ?sub_spec, ?mul_spec, ?div_spec;
      unfold SF64add, SFadd, SF64sub, SFsub, SF64mul, SFmul, SF64div, SFdiv;
      destruct (Prim2SF x); try discriminate; reflexivity. }
  split; [|exact Hr].
  unfold np_binop, np_flag. now rewrite Hr, Hx.
Qed.

Lemma np_binop_nan_r (op : np_op) (x y : float) :
  float_is_nan y = true ->
  np_binop op x y = np_ret (np_apply op x y) /\
  float_is_nan (np_apply op x y) = true.
Proof.
  intros Hy.
  assert (Hr : float_is_nan (np_apply op x y) = true).
  { unfold float_is_nan in *. destruct op; cbn [np_apply];
      rewrite ?add_spec, ?sub_spec, ?mul_spec, ?div_spec;
      unfold SF64add, SFadd, SF64sub, SFsub, SF64mul, SFmul, SF64div, SFdiv;
      destruct (Prim2SF y); try discriminate; now destruct (Prim2SF x). }
  split; [|exact Hr].
  unfold np_binop, np_flag. rewrite Hr, Hy. now rewrite Bool.orb_true_r.
Qed.

Lemma np_bind_ret {A B} (a : A) (f : A -> NP B) : np_bind (np_ret a) f = f a.
Proof. unfold np_bind, np_ret. destruct (f a); reflexivity. Qed.

Lemma np_bind_binop {B} (op : np_op) (x y : float) (f : float -> NP B) :
  np_bind (np_binop op x y) f
  = (warnings (np_binop op x y) ++ warnings (f (np_apply op x y)),
     snd (f (np_apply op x y))).
Proof. unfold np_bind, np_binop, warnings. cbn. now destruct (f _). Qed.

Section WarningFacts.
Context `{Power float}.

Lemma np_bind_pow {B} (x : float) (n : Z) (f : float -> NP B) :
  np_bind (np_pow x n) f
  = match power x n with
    | PowValue y => f y
    | PowZeroDivision => ([], Raise ZeroDivisionError)
    | PowOverflow => ([], Raise OverflowError)
    end.
Proof.
  unfold np_pow, pow. destruct (power x n); cbn; try reflexivity.
  now destruct (f y).
Qed.

Lemma bind_pow {B} (x : float) (n : Z) (f : float -> M B) :
  bind (pow x n) f
  = match power x n with
    | PowValue y => f y
    | PowZeroDivision => raise ZeroDivisionError
    | PowOverflow => raise OverflowError
    end.
Proof.
  unfold pow. destruct (power x n); try reflexivity. apply bind_ret.
Qed.

(** The run with its warnings ends as the run without them. *)
Lemma np_dcf_present_value_result (fcf g d : float) (year : Z) :
  snd (np_dcf_present_value fcf g d year)
  = result (dcf_present_value fcf g d year).
Proof.
  unfold np_dcf_present_value, dcf_present_value.
  rewrite np_bind_pow, bind_pow.
  destruct (power (of_Z 1 + g)%num year); try reflexivity.
  rewrite np_bind_binop. cbn [snd]. rewrite np_bind_pow, bind_pow.
  destruct (power (of_Z 1 + d)%num year); reflexivity.
Qed.

Lemma np_bind_snd {A B} (m : NP A) (f : A -> NP B) :
  snd (np_bind m f)
  = match snd m with
    | Return a => snd (f a)
    | Raise e => Raise e
    end.
Proof. destruct m as [w [a|e]]; cbn; [now destruct (f a)|reflexivity]. Qed.

Lemma bind_result {A B} (m : M A) (f : A -> M B) :
  result (bind m f)
  = match result m with
    | Return a => result (f a)
    | Raise e => Raise e
    end.
Proof. destruct m as [o [a|e]]; cbn; [now destruct (f a)|reflexivity]. Qed.


Lemma np_dcf_loop_result (fcf g d : float) (years : list Z) :
  forall acc,
    snd (np_dcf_loop fcf g d years acc) = result (dcf_loop fcf g d years acc).
Proof.
  induction years as [|y ys IH]; intros acc; [reflexivity|].
  cbn [np_dcf_loop dcf_loop].
  rewrite np_bind_snd, bind_result, np_dcf_present_value_result.
  destruct (result (dcf_present_value fcf g d y)); [apply IH|reflexivity].
Qed.



End WarningFacts.

(** * The claims *)

(** ** Profitability *)

(** C2 (as amended): when the income statement has a latest period and holds
    'Total Revenue' and 'Net Income', and the balance sheet holds 'Total
    Assets' and 'Stockholders Equity' and a column carrying the income
    statement's latest label, the calculator prints nothing and returns
    exactly the three ratios, each (numerator / denominator) * 100, computed
    from the cells found under that label. *)
Theorem profitability_ratios_of_aligned_store
    {num : Type} `{Arith num} (self : FundamentalAnalyzer num)
    (latest : string) (rest : list string) :
  columns (income_stmt self) = latest :: rest ->
  contains (index (income_stmt self)) "Total Revenue" = true ->
  contains (index (income_stmt self)) "Net Income" = true ->
  contains (index (balance_sheet self)) "Total Assets" = true ->
  contains (index (balance_sheet self)) "Stockholders Equity" = true ->
  contains (columns (balance_sheet self)) latest = true ->
  exists revenue net_income total_assets shareholders_equity,
    loc (income_stmt self) "Total Revenue" latest = ret revenue /\
    loc (income_stmt self) "Net Income" latest = ret net_income /\
    loc (balance_sheet self) "Total Assets" latest = ret total_assets /\
    loc (balance_sheet self) "Stockholders Equity" latest
    = ret shareholders_equity /\
    calculate_profitability_ratios self
    = ret [ ("Net Profit Margin (%)",
             VNum ((net_income / revenue) * of_Z 100)%num);
            ("ROA (Return on Assets %)",
             VNum ((net_income / total_assets) * of_Z 100)%num);
            ("ROE (Return on Equity %)",
             VNum ((net_income / shareholders_equity) * of_Z 100)%num) ].
Proof.
  intros Hc Hr Hn Ha He Hl.
  assert (Hi : contains (columns (income_stmt self)) latest = true)
    by (rewrite Hc; apply contains_head).
  destruct (profitability_cases self latest rest Hc)
    as [(r & n & a & e & E1 & E2 & E3 & E4 & E)
       |(k & (row & df & Ek & [[-> Hrow]|[-> Hrow]]) & _)].
  - exists r, n, a, e. repeat split; assumption.
  - exfalso. destruct Hrow as [-> | ->].
    + destruct (loc_present _ _ _ Hr Hi) as [v Ev]. rewrite Ev in Ek. discriminate.
    + destruct (loc_present _ _ _ Hn Hi) as [v Ev]. rewrite Ev in Ek. discriminate.
  - exfalso. destruct Hrow as [-> | ->].
    + destruct (loc_present _ _ _ Ha Hl) as [v Ev]. rewrite Ev in Ek. discriminate.
    + destruct (loc_present _ _ _ He Hl) as [v Ev]. rewrite Ev in Ek. discriminate.
Qed.

Lemma profitability_ratios_of_aligned_store_witness :
  exists revenue net_income total_assets shareholders_equity,
    loc (income_stmt single_period_store) "Total Revenue" "2024"
    = ret revenue /\
    loc (income_stmt single_period_store) "Net Income" "2024"
    = ret net_income /\
    loc (balance_sheet single_period_store) "Total Assets" "2024"
    = ret total_assets /\
    loc (balance_sheet single_period_store) "Stockholders Equity" "2024"
    = ret shareholders_equity /\
    calculate_profitability_ratios single_period_store
    = ret [ ("Net Profit Margin (%)",
             VNum ((net_income / revenue) * of_Z 100)%num);
            ("ROA (Return on Assets %)",
             VNum ((net_income / total_assets) * of_Z 100)%num);
            ("ROE (Return on Equity %)",
             VNum ((net_income / shareholders_equity) * of_Z 100)%num) ].
Proof.
  apply (profitability_ratios_of_aligned_store single_period_store "2024" []);
    reflexivity.
Defined.

(** C2 (as stated) fails: every one of the four items is present in its own
    statement's latest period, yet the result is the empty dict, because the
    balance sheet has no column labelled like the income statement's latest
    period. *)
Lemma profitability_label_mismatch :
  latest_value (income_stmt mismatched_store) "Total Revenue"
  = Some (Fin 100) /\
  latest_value (income_stmt mismatched_store) "Net Income" = Some (Fin 20) /\
  latest_value (balance_sheet mismatched_store) "Total Assets"
  = Some (Fin 200) /\
  latest_value (balance_sheet mismatched_store) "Stockholders Equity"
  = Some (Fin 100) /\
  calculate_profitability_ratios mismatched_store
  = (profitability_diagnostic mismatched_store "2024", Return []).
Proof. repeat split. Qed.

(** C3: when the income statement has a latest period and any one of 'Total
    Revenue', 'Net Income' (income statement), 'Total Assets', 'Stockholders
    Equity' (balance sheet) is absent, the calculator prints its diagnostic
    (the missing label and the first row names of both statements) and
    returns the empty dict, never a partial one. *)
Theorem profitability_all_or_nothing
    {num : Type} `{Arith num} (self : FundamentalAnalyzer num)
    (latest : string) (rest : list string) :
  columns (income_stmt self) = latest :: rest ->
  contains (index (income_stmt self)) "Total Revenue" = false \/
  contains (index (income_stmt self)) "Net Income" = false \/
  contains (index (balance_sheet self)) "Total Assets" = false \/
  contains (index (balance_sheet self)) "Stockholders Equity" = false ->
  exists k,
    calculate_profitability_ratios self
    = (profitability_diagnostic self k, Return []).
Proof.
  intros Hc Hmiss.
  destruct (profitability_cases self latest rest Hc)
    as [(r & n & a & e & E1 & E2 & E3 & E4 & _)|(k & _ & E)];
    [exfalso | now exists k].
  destruct Hmiss as [Hm|[Hm|[Hm|Hm]]];
    destruct (loc_missing_row _ _ latest Hm) as [k Ek];
    rewrite Ek in *; discriminate.
Qed.

Lemma profitability_all_or_nothing_witness :
  exists k,
    calculate_profitability_ratios missing_item_store
    = (profitability_diagnostic missing_item_store k, Return []).
Proof.
  apply (profitability_all_or_nothing missing_item_store "2024" []);
    [reflexivity | right; left; reflexivity].
Defined.

(** C10: the balance-sheet items are looked up under the income statement's
    latest column label, so a balance sheet without a column of that label
    yields the diagnostic and the empty dict, whatever rows it holds. *)
Theorem profitability_needs_shared_label
    {num : Type} `{Arith num} (self : FundamentalAnalyzer num)
    (latest : string) (rest : list string) :
  columns (income_stmt self) = latest :: rest ->
  contains (columns (balance_sheet self)) latest = false ->
  exists k,
    calculate_profitability_ratios self
    = (profitability_diagnostic self k, Return []).
Proof.
  intros Hc Hl.
  destruct (profitability_cases self latest rest Hc)
    as [(r & n & a & e & _ & _ & E3 & _)|(k & _ & E)];
    [exfalso | now exists k].
  rewrite (loc_missing_column _ "Total Assets" latest Hl) in E3.
  discriminate.
Qed.

Lemma profitability_needs_shared_label_witness :
  (latest_value (income_stmt mismatched_store) "Total Revenue"
   = Some (Fin 100) /\
   latest_value (income_stmt mismatched_store) "Net Income"
   = Some (Fin 20) /\
   latest_value (balance_sheet mismatched_store) "Total Assets"
   = Some (Fin 200) /\
   latest_value (balance_sheet mismatched_store) "Stockholders Equity"
   = Some (Fin 100)) /\
  exists k,
    calculate_profitability_ratios mismatched_store
    = (profitability_diagnostic mismatched_store k, Return []).
Proof.
  split; [repeat split|].
  apply (profitability_needs_shared_label mismatched_store "2024" []);
    reflexivity.
Defined.

(** C9: with no reporting period the calculators raise [IndexError] and
    return nothing: the profitability calculator reads the latest label
    before its [try], and the valuation's handler catches [KeyError] only. *)
Theorem no_period_raises_IndexError
    {num : Type} `{Arith num} `{Power num} (self : FundamentalAnalyzer num) :
  (columns (income_stmt self) = [] ->
   calculate_profitability_ratios self = raise IndexError) /\
  (columns (cashflow self) = [] ->
   forall g d years, simple_dcf_valuation self g d years = raise IndexError).
Proof.
  split.
  - intros Hc. unfold calculate_profitability_ratios.
    now rewrite Hc, getitem_empty.
  - intros Hc g d years. now apply simple_dcf_no_periods.
Qed.

Lemma no_period_raises_IndexError_witness :
  calculate_profitability_ratios no_period_store = raise IndexError /\
  simple_dcf_valuation no_period_store (Fin (5 # 100)) (Fin (10 # 100)) 5
  = raise IndexError.
Proof.
  destruct (no_period_raises_IndexError no_period_store) as [Hp Hd].
  split; [apply Hp | apply Hd]; reflexivity.
Defined.

(** ** Growth *)

(** C8: with fewer than two reporting periods (none included) the growth
    calculator prints nothing, raises nothing and returns the single entry
    'Note'. *)
Theorem growth_needs_two_periods
    {num : Type} `{Arith num} (self : FundamentalAnalyzer num) :
  (length (columns (income_stmt self)) < 2)%nat ->
  calculate_growth_metrics self
  = ret [("Note", VStr "Insufficient data for growth calculation")].
Proof.
  intros Hlen. unfold calculate_growth_metrics.
  apply Nat.ltb_lt in Hlen. now rewrite Hlen.
Qed.

Lemma growth_needs_two_periods_witness :
  calculate_growth_metrics single_period_store
  = ret [("Note", VStr "Insufficient data for growth calculation")] /\
  calculate_growth_metrics no_period_store
  = ret [("Note", VStr "Insufficient data for growth calculation")].
Proof.
  split; apply growth_needs_two_periods; simpl; lia.
Defined.

(** ** The worked scenario *)

(** C7: on the store of section 8 the calculators return net profit margin
    20, ROA 10, ROE 20, debt-to-equity 1/2 (debt-to-assets 1/4, equity
    multiplier 2), revenue growth 25 and net income growth 100; in exact
    arithmetic and in binary64 alike. *)
Theorem scenario_ratios :
  calculate_profitability_ratios (scenario_store (num := xq))
  = ret [ ("Net Profit Margin (%)", VNum (Fin 20));
          ("ROA (Return on Assets %)", VNum (Fin 10));
          ("ROE (Return on Equity %)", VNum (Fin 20)) ] /\
  calculate_leverage_ratios (scenario_store (num := xq))
  = ret [ ("Debt-to-Equity", VNum (Fin (1 # 2)));
          ("Debt-to-Assets", VNum (Fin (1 # 4)));
          ("Equity Multiplier", VNum (Fin 2)) ] /\
  calculate_growth_metrics (scenario_store (num := xq))
  = ret [ ("Revenue Growth YoY (%)", VNum (Fin 25));
          ("Net Income Growth YoY (%)", VNum (Fin 100)) ] /\
  calculate_profitability_ratios (scenario_store (num := float))
  = ret [ ("Net Profit Margin (%)", VNum 20%float);
          ("ROA (Return on Assets %)", VNum 10%float);
          ("ROE (Return on Equity %)", VNum 20%float) ] /\
  calculate_leverage_ratios (scenario_store (num := float))
  = ret [ ("Debt-to-Equity", VNum 0.5%float);
          ("Debt-to-Assets", VNum 0.25%float);
          ("Equity Multiplier", VNum 2%float) ] /\
  calculate_growth_metrics (scenario_store (num := float))
  = ret [ ("Revenue Growth YoY (%)", VNum 25%float);
          ("Net Income Growth YoY (%)", VNum 100%float) ].
Proof. repeat split; vm_compute; reflexivity. Qed.

(** ** Valuation *)

(** C6 (as amended): with a latest period in the cash-flow table, the base
    free cash flow is the 'Free Cash Flow' cell of that period when the row
    exists (whether or not 'Operating Cash Flow' exists too); otherwise,
    when 'Operating Cash Flow' exists, it is that cell minus the absolute
    value of the 'Capital Expenditure' cell, or minus 0 when that row is
    absent; and when neither row exists the call prints the single line
    'Cannot find cash flow data' and returns the empty dict. *)
Theorem dcf_base_fcf_preference
    {num : Type} `{Arith num} `{Power num} (self : FundamentalAnalyzer num)
    (latest : string) (rest : list string) (g d : num) (years : Z) :
  columns (cashflow self) = latest :: rest ->
  let has row := contains (index (cashflow self)) row in
  (has "Free Cash Flow" = true ->
   exists fcf, loc (cashflow self) "Free Cash Flow" latest = ret fcf /\
               base_fcf_is self g d years fcf) /\
  (has "Free Cash Flow" = false -> has "Operating Cash Flow" = true ->
   exists ocf, loc (cashflow self) "Operating Cash Flow" latest = ret ocf /\
     (has "Capital Expenditure" = true ->
      exists capex,
        loc (cashflow self) "Capital Expenditure" latest = ret capex /\
        base_fcf_is self g d years (ocf - absolute capex)%num) /\
     (has "Capital Expenditure" = false ->
      base_fcf_is self g d years (ocf - of_Z 0)%num)) /\
  (has "Free Cash Flow" = false -> has "Operating Cash Flow" = false ->
   simple_dcf_valuation self g d years
   = ([[Lit "Cannot find cash flow data"]], Return [])).
Proof.
  intros Hc has.
  assert (Hbase : forall v, dcf_base_fcf self = ret (Some v) ->
                            base_fcf_is self g d years v).
  { intros v Hb. split; [exact Hb|].
    rewrite (simple_dcf_of_base self v g d years Hb).
    destruct (dcf_project_shape v g d years) as [(p & t & ->)|[-> | ->]];
      [left | right; left; reflexivity | right; right; reflexivity].
    eexists. split; reflexivity. }
  destruct (dcf_base_fcf_cases self latest rest Hc) as (Hf & Ho & Hn).
  split; [|split].
  - intros E. destruct (Hf E) as (v & Ev & Hb). eauto.
  - intros E1 E2. destruct (Ho E1 E2) as (ocf & Eo & Hx & Hy).
    exists ocf. split; [assumption|]. split.
    + intros E3. destruct (Hx E3) as (c & Ec & Hb). eauto.
    + intros E3. auto.
  - intros E1 E2. now apply (simple_dcf_no_cash_rows self latest rest).
Qed.

Lemma dcf_base_fcf_preference_witness :
  (contains (index (cashflow single_period_store)) "Operating Cash Flow"
   = true /\
   exists fcf,
     loc (cashflow single_period_store) "Free Cash Flow" "2024" = ret fcf /\
     base_fcf_is single_period_store (Fin (5 # 100)) (Fin (10 # 100)) 5 fcf)
  /\
  (exists ocf,
     loc (cashflow scenario_cashflow) "Operating Cash Flow" "2024" = ret ocf /\
     exists capex,
       loc (cashflow scenario_cashflow) "Capital Expenditure" "2024"
       = ret capex /\
       base_fcf_is scenario_cashflow (Fin (5 # 100)) (Fin (10 # 100)) 5
         (ocf - absolute capex)%num)
  /\
  simple_dcf_valuation no_cash_rows_store (Fin (5 # 100)) (Fin (10 # 100)) 5
  = ([[Lit "Cannot find cash flow data"]], Return []).
Proof.
  split; [split; [reflexivity|] | split].
  - apply (dcf_base_fcf_preference single_period_store "2024" []
             (Fin (5 # 100)) (Fin (10 # 100)) 5%Z eq_refl).
    reflexivity.
  - destruct (dcf_base_fcf_preference scenario_cashflow "2024" []
                (Fin (5 # 100)) (Fin (10 # 100)) 5%Z eq_refl)
      as (_ & Ho & _).
    destruct (Ho eq_refl eq_refl) as (ocf & Eo & Hx & _).
    exists ocf. split; [exact Eo|]. apply Hx. reflexivity.
  - apply (dcf_base_fcf_preference no_cash_rows_store "2024" []
             (Fin (5 # 100)) (Fin (10 # 100)) 5%Z eq_refl);
      reflexivity.
Defined.

(** C6 (as stated) fails in its last case: with neither row present the call
    prints the one fixed line and no listing of the available rows. *)
Lemma dcf_no_cash_rows_prints_no_listing :
  simple_dcf_valuation no_cash_rows_store (Fin (5 # 100)) (Fin (10 # 100)) 5
  = ([[Lit "Cannot find cash flow data"]], Return []) /\
  index (cashflow no_cash_rows_store) = ["Net Income"; "Depreciation"] /\
  ~ In [ReprLabels (head10 (index (cashflow no_cash_rows_store)))]
       (output (simple_dcf_valuation no_cash_rows_store (Fin (5 # 100))
                  (Fin (10 # 100)) 5)).
Proof.
  repeat split. cbn. intros [E|[]]. discriminate.
Qed.

(** C1 (as amended): for every cash-flow table yielding a base free cash
    flow FCF0 and every growth rate g, discount rate d and horizon N, in any
    arithmetic and binary64 in particular: where [**] has a value for the
    powers the formula needs, [simple_dcf_valuation] returns an 'Enterprise
    Value' equal to the sum over y = 1..N of (FCF0 (1+g)^y) / (1+d)^y, added
    from the left to 0, plus the discounted terminal value
    (((FCF0 (1+g)^N) (1+g)) / (d-g)) / (1+d)^N, every operation rounded where
    it is written; where [**] has none the call raises [ZeroDivisionError]
    or [OverflowError] and returns nothing.  In the scenario (operating cash
    flow 150, capital expenditure -30, g = 0.05, d = 0.10, N = 5, float64
    cells) the base is 120 and the value returned is the float 2520.0,
    within 1e-6 of the reference fixed-point calculation. *)
Theorem dcf_enterprise_value_formula :
  (forall (num : Type) (arith : Arith num) (pw : Power num)
          (self : FundamentalAnalyzer num) (fcf0 g d : num) (N : Z),
      dcf_base_fcf self = ret (Some fcf0) ->
      match closed_form_ev fcf0 g d N with
      | Some v => exists m,
          simple_dcf_valuation self g d N = ret m /\
          dict_get "Enterprise Value" m = Some (VNum v)
      | None => pow_raises (simple_dcf_valuation self g d N)
      end) /\
  dcf_base_fcf scenario_cashflow_f64 = ret (Some 120%float) /\
  returned_number "Enterprise Value"
    (simple_dcf_valuation scenario_cashflow_f64 default_growth_rate
       default_discount_rate 5) = Some 2520%float /\
  exists q,
    float_to_Q 2520%float = Some q /\
    within_relative (1 # 1000000) q
      (fx_reference_ev 120 (5 # 100) (10 # 100) 5).
Proof.
  split; [|split; [|split]]; try (vm_compute; reflexivity).
  - intros num arith pw self fcf0 g d N Hb.
    rewrite (simple_dcf_of_base self fcf0 g d N Hb).
    apply dcf_project_closed_form.
  - eexists. split; [vm_compute; reflexivity|].
    unfold within_relative. apply Qle_bool_imp_le. vm_compute. reflexivity.
Qed.

Lemma dcf_enterprise_value_formula_witness :
  dcf_base_fcf fcf_150_store = ret (Some 150%float) /\
  closed_form_ev 150%float default_growth_rate default_discount_rate 5
  = Some 3150%float /\
  exists m,
    simple_dcf_valuation fcf_150_store default_growth_rate
      default_discount_rate 5 = ret m /\
    dict_get "Enterprise Value" m = Some (VNum 3150%float).
Proof.
  split; [reflexivity|]. split; [vm_compute; reflexivity|].
  exact (proj1 dcf_enterprise_value_formula float float_Arith float_Power
           fcf_150_store 150%float default_growth_rate default_discount_rate
           5%Z eq_refl).
Defined.

(** C1 as stated fails in binary64: at g = 2^600 (about 4.15e180) and N = 2
    the call raises [OverflowError] and returns no value at all; and with a
    base cash flow of 150 at g = 0.05, d = 0.10, N = 5 the value returned is
    3150.0, where the formula with the terminal-year cash flow written
    FCF0 (1+g)^(N+1) gives 3149.9999999999995. *)
Lemma dcf_closed_form_fails_in_binary64 :
  simple_dcf_valuation scenario_cashflow_f64 0x1p+600%float
    default_discount_rate 2 = raise OverflowError /\
  returned_number "Enterprise Value"
    (simple_dcf_valuation fcf_150_store default_growth_rate
       default_discount_rate 5) = Some 3150%float /\
  spec_ev 150%float default_growth_rate default_discount_rate 5
  = Some 0x1.89bffffffffffp+11%float /\
  3150%float <> 0x1.89bffffffffffp+11%float.
Proof.
  repeat split; try (vm_compute; reflexivity).
  intros E. apply (f_equal Prim2SF) in E. vm_compute in E. discriminate E.
Qed.




(** * Further properties *)

(** ** Lookup *)

Section MoreLookupFacts.
Context {num : Type} `{Arith num}.

(** With the column there, a missing row is reported by its own name. *)
Lemma loc_absent_row (df : DataFrame num) (row col : string) :
  contains (columns df) col = true ->
  contains (index df) row = false ->
  loc df row col = raise (KeyError row).
Proof.
  intros Hc Hr. apply row_values_contains in Hr. unfold loc. rewrite Hr.
  destruct (position col (columns df)) eqn:Ep; [reflexivity|].
  apply position_contains in Ep. congruence.
Qed.

Lemma loc_ret_row_present (df : DataFrame num) (row col : string) (v : num) :
  loc df row col = ret v -> contains (index df) row = true.
Proof.
  intros E. destruct (contains (index df) row) eqn:Hr; [reflexivity|].
  destruct (loc_missing_row df row col Hr) as [k Ek].
  rewrite Ek in E. discriminate.
Qed.

Lemma ret_inj {A} (a b : A) : ret a = ret b -> a = b.
Proof. intros E. now injection E. Qed.
End MoreLookupFacts.

(** ** Leverage and growth: what the calls compute *)

Section MoreCalculatorFacts.
Context {num : Type} `{Arith num}.
Variable self : FundamentalAnalyzer num.

Lemma profitability_of_cells (latest : string) (rest : list string)
    (revenue net_income total_assets shareholders_equity : num) :
  columns (income_stmt self) = latest :: rest ->
  loc (income_stmt self) "Total Revenue" latest = ret revenue ->
  loc (income_stmt self) "Net Income" latest = ret net_income ->
  loc (balance_sheet self) "Total Assets" latest = ret total_assets ->
  loc (balance_sheet self) "Stockholders Equity" latest
  = ret shareholders_equity ->
  calculate_profitability_ratios self
  = ret (profitability_entries revenue net_income total_assets
           shareholders_equity).
Proof.
  intros Hc E1 E2 E3 E4. unfold calculate_profitability_ratios.
  rewrite Hc, getitem_head, bind_ret.
  rewrite E1, bind_ret, E2, bind_ret, E3, bind_ret, E4, bind_ret.
  reflexivity.
Qed.

(** The handler runs on the first lookup that fails, whatever comes after. *)
Lemma profitability_first_failure (latest : string) (rest : list string)
    (k : string) :
  columns (income_stmt self) = latest :: rest ->
  (loc (income_stmt self) "Total Revenue" latest = raise (KeyError k) \/
   (exists v1, loc (income_stmt self) "Total Revenue" latest = ret v1) /\
   (loc (income_stmt self) "Net Income" latest = raise (KeyError k) \/
    (exists v2, loc (income_stmt self) "Net Income" latest = ret v2) /\
    (loc (balance_sheet self) "Total Assets" latest = raise (KeyError k) \/
     (exists v3, loc (balance_sheet self) "Total Assets" latest = ret v3) /\
     loc (balance_sheet self) "Stockholders Equity" latest
     = raise (KeyError k)))) ->
  calculate_profitability_ratios self
  = (profitability_diagnostic self k, Return []).
Proof.
  intros Hc Hfail. unfold calculate_profitability_ratios.
  rewrite Hc, getitem_head, bind_ret.
  pose proof (try_alternative_names_returns self latest rest Hc) as Halt.
  destruct Hfail as [E1|[[v1 E1] [E2|[[v2 E2] [E3|[[v3 E3] E4]]]]]].
  - rewrite E1, bind_raise, try_KeyError, bind_print, Halt. reflexivity.
  - rewrite E1, bind_ret, E2, bind_raise, try_KeyError, bind_print, Halt.
    reflexivity.
  - rewrite E1, bind_ret, E2, bind_ret, E3, bind_raise, try_KeyError,
      bind_print, Halt.
    reflexivity.
  - rewrite E1, bind_ret, E2, bind_ret, E3, bind_ret, E4, bind_raise,
      try_KeyError, bind_print, Halt.
    reflexivity.
Qed.

Lemma leverage_of_cells (latest : string) (rest : list string)
    (total_debt total_equity total_assets : num) :
  columns (balance_sheet self) = latest :: rest ->
  loc (balance_sheet self) "Total Debt" latest = ret total_debt ->
  loc (balance_sheet self) "Stockholders Equity" latest = ret total_equity ->
  loc (balance_sheet self) "Total Assets" latest = ret total_assets ->
  calculate_leverage_ratios self
  = ret [ ("Debt-to-Equity", VNum (total_debt / total_equity)%num);
          ("Debt-to-Assets", VNum (total_debt / total_assets)%num);
          ("Equity Multiplier", VNum (total_assets / total_equity)%num) ].
Proof.
  intros Hc E1 E2 E3. unfold calculate_leverage_ratios.
  rewrite Hc, getitem_head, bind_ret.
  rewrite E1, bind_ret, E2, bind_ret, E3, bind_ret. reflexivity.
Qed.

Lemma leverage_first_failure (latest : string) (rest : list string)
    (k : string) :
  columns (balance_sheet self) = latest :: rest ->
  (loc (balance_sheet self) "Total Debt" latest = raise (KeyError k) \/
   (exists v1, loc (balance_sheet self) "Total Debt" latest = ret v1) /\
   (loc (balance_sheet self) "Stockholders Equity" latest
    = raise (KeyError k) \/
    (exists v2,
        loc (balance_sheet self) "Stockholders Equity" latest = ret v2) /\
    loc (balance_sheet self) "Total Assets" latest = raise (KeyError k))) ->
  calculate_leverage_ratios self = (leverage_diagnostic k, Return []).
Proof.
  intros Hc Hfail. unfold calculate_leverage_ratios.
  rewrite Hc, getitem_head, bind_ret.
  destruct Hfail as [E1|[[v1 E1] [E2|[[v2 E2] E3]]]].
  - rewrite E1, bind_raise, try_KeyError. reflexivity.
  - rewrite E1, bind_ret, E2, bind_raise, try_KeyError. reflexivity.
  - rewrite E1, bind_ret, E2, bind_ret, E3, bind_raise, try_KeyError.
    reflexivity.
Qed.

(** With a latest period the leverage calculator returns: its three ratios
    without a word, or the empty dict after its warning. *)
Lemma leverage_cases (latest : string) (rest : list string) :
  columns (balance_sheet self) = latest :: rest ->
  (exists d e a,
      loc (balance_sheet self) "Total Debt" latest = ret d /\
      loc (balance_sheet self) "Stockholders Equity" latest = ret e /\
      loc (balance_sheet self) "Total Assets" latest = ret a /\
      calculate_leverage_ratios self
      = ret [ ("Debt-to-Equity", VNum (d / e)%num);
              ("Debt-to-Assets", VNum (d / a)%num);
              ("Equity Multiplier", VNum (a / e)%num) ]) \/
  (exists k, calculate_leverage_ratios self
             = (leverage_diagnostic k, Return [])).
Proof.
  intros Hc.
  destruct (loc_outcome (balance_sheet self) "Total Debt" latest)
    as [[v1 E1]|[k E1]];
    [|right; exists k; apply (leverage_first_failure latest rest); auto].
  destruct (loc_outcome (balance_sheet self) "Stockholders Equity" latest)
    as [[v2 E2]|[k E2]];
    [|right; exists k; apply (leverage_first_failure latest rest); eauto].
  destruct (loc_outcome (balance_sheet self) "Total Assets" latest)
    as [[v3 E3]|[k E3]];
    [|right; exists k; apply (leverage_first_failure latest rest);
      eauto 10].
  left. exists v1, v2, v3. repeat split; try assumption.
  now apply (leverage_of_cells latest rest).
Qed.

Lemma growth_of_cells (current_year previous_year : string)
    (rest : list string)
    (current_revenue previous_revenue current_ni previous_ni : num) :
  columns (income_stmt self) = current_year :: previous_year :: rest ->
  loc (income_stmt self) "Total Revenue" current_year = ret current_revenue ->
  loc (income_stmt self) "Total Revenue" previous_year
  = ret previous_revenue ->
  loc (income_stmt self) "Net Income" current_year = ret current_ni ->
  loc (income_stmt self) "Net Income" previous_year = ret previous_ni ->
  calculate_growth_metrics self
  = ret [ ("Revenue Growth YoY (%)",
           VNum (((current_revenue - previous_revenue) / previous_revenue)
                 * of_Z 100)%num);
          ("Net Income Growth YoY (%)",
           VNum (((current_ni - previous_ni) / previous_ni)
                 * of_Z 100)%num) ].
Proof.
  intros Hc E1 E2 E3 E4. unfold calculate_growth_metrics. rewrite Hc.
  cbn [length Nat.ltb Nat.leb getitem nth_error]. rewrite !bind_ret.
  rewrite E1, bind_ret, E2, bind_ret, E3, bind_ret, E4, bind_ret.
  reflexivity.
Qed.

Lemma growth_row_missing (current_year previous_year : string)
    (rest : list string) :
  columns (income_stmt self) = current_year :: previous_year :: rest ->
  contains (index (income_stmt self)) "Total Revenue" = false \/
  contains (index (income_stmt self)) "Net Income" = false ->
  calculate_growth_metrics self = ret [].
Proof.
  intros Hc Hmiss. unfold calculate_growth_metrics. rewrite Hc.
  cbn [length Nat.ltb Nat.leb getitem nth_error]. rewrite !bind_ret.
  destruct (loc_outcome (income_stmt self) "Total Revenue" current_year)
    as [[v1 E1]|[k E1]]; rewrite E1;
    [rewrite bind_ret | now rewrite bind_raise, try_KeyError].
  destruct (loc_outcome (income_stmt self) "Total Revenue" previous_year)
    as [[v2 E2]|[k E2]]; rewrite E2;
    [rewrite bind_ret | now rewrite bind_raise, try_KeyError].
  destruct (loc_outcome (income_stmt self) "Net Income" current_year)
    as [[v3 E3]|[k E3]]; rewrite E3;
    [rewrite bind_ret | now rewrite bind_raise, try_KeyError].
  destruct (loc_outcome (income_stmt self) "Net Income" previous_year)
    as [[v4 E4]|[k E4]]; rewrite E4;
    [rewrite bind_ret | now rewrite bind_raise, try_KeyError].
  exfalso. destruct Hmiss as [Hm|Hm].
  - apply loc_ret_row_present in E1. congruence.
  - apply loc_ret_row_present in E3. congruence.
Qed.
End MoreCalculatorFacts.

(** ** Leverage *)

(** X1: the leverage calculator reads the balance sheet only, under that
    statement's own latest label: when the balance sheet has a period and
    the rows 'Total Debt', 'Stockholders Equity' and 'Total Assets', the call
    prints nothing and returns exactly Debt-to-Equity = debt / equity,
    Debt-to-Assets = debt / assets and Equity Multiplier = assets / equity,
    whatever the income statement holds. *)
Theorem leverage_ratios_of_latest_period
    {num : Type} `{Arith num} (self : FundamentalAnalyzer num)
    (latest : string) (rest : list string) :
  columns (balance_sheet self) = latest :: rest ->
  contains (index (balance_sheet self)) "Total Debt" = true ->
  contains (index (balance_sheet self)) "Stockholders Equity" = true ->
  contains (index (balance_sheet self)) "Total Assets" = true ->
  exists total_debt total_equity total_assets,
    loc (balance_sheet self) "Total Debt" latest = ret total_debt /\
    loc (balance_sheet self) "Stockholders Equity" latest
    = ret total_equity /\
    loc (balance_sheet self) "Total Assets" latest = ret total_assets /\
    calculate_leverage_ratios self
    = ret [ ("Debt-to-Equity", VNum (total_debt / total_equity)%num);
            ("Debt-to-Assets", VNum (total_debt / total_assets)%num);
            ("Equity Multiplier", VNum (total_assets / total_equity)%num) ].
Proof.
  intros Hc Hd He Ha.
  assert (Hl : contains (columns (balance_sheet self)) latest = true)
    by (rewrite Hc; apply contains_head).
  destruct (loc_present _ _ _ Hd Hl) as [d Ed].
  destruct (loc_present _ _ _ He Hl) as [e Ee].
  destruct (loc_present _ _ _ Ha Hl) as [a Ea].
  exists d, e, a. repeat split; try assumption.
  now apply (leverage_of_cells self latest rest).
Qed.

Lemma leverage_ratios_of_latest_period_witness :
  exists total_debt total_equity total_assets,
    loc (balance_sheet zero_base_store) "Total Debt" "2024"
    = ret total_debt /\
    loc (balance_sheet zero_base_store) "Stockholders Equity" "2024"
    = ret total_equity /\
    loc (balance_sheet zero_base_store) "Total Assets" "2024"
    = ret total_assets /\
    calculate_leverage_ratios zero_base_store
    = ret [ ("Debt-to-Equity", VNum (total_debt / total_equity)%num);
            ("Debt-to-Assets", VNum (total_debt / total_assets)%num);
            ("Equity Multiplier", VNum (total_assets / total_equity)%num) ].
Proof.
  apply (leverage_ratios_of_latest_period zero_base_store "2024" []);
    reflexivity.
Defined.

(** X2: when the balance sheet has a period and one of the three rows is
    absent, the leverage calculator prints one warning line naming the first
    absent row in the order Total Debt, Stockholders Equity, Total Assets,
    and returns the empty dict. *)
Theorem leverage_names_first_missing_row
    {num : Type} `{Arith num} (self : FundamentalAnalyzer num)
    (latest : string) (rest : list string) :
  columns (balance_sheet self) = latest :: rest ->
  let has row := contains (index (balance_sheet self)) row in
  (has "Total Debt" = false ->
   calculate_leverage_ratios self
   = (leverage_diagnostic "Total Debt", Return [])) /\
  (has "Total Debt" = true -> has "Stockholders Equity" = false ->
   calculate_leverage_ratios self
   = (leverage_diagnostic "Stockholders Equity", Return [])) /\
  (has "Total Debt" = true -> has "Stockholders Equity" = true ->
   has "Total Assets" = false ->
   calculate_leverage_ratios self
   = (leverage_diagnostic "Total Assets", Return [])).
Proof.
  intros Hc has. subst has.
  assert (Hl : contains (columns (balance_sheet self)) latest = true)
    by (rewrite Hc; apply contains_head).
  split; [|split].
  - intros Hd. apply (leverage_first_failure self latest rest _ Hc).
    left. now apply loc_absent_row.
  - intros Hd He. apply (leverage_first_failure self latest rest _ Hc).
    right. split; [now apply loc_present|].
    left. now apply loc_absent_row.
  - intros Hd He Ha. apply (leverage_first_failure self latest rest _ Hc).
    right. split; [now apply loc_present|].
    right. split; [now apply loc_present|]. now apply loc_absent_row.
Qed.

Lemma leverage_names_first_missing_row_witness :
  calculate_leverage_ratios single_period_store
  = (leverage_diagnostic "Total Debt", Return []).
Proof.
  apply (leverage_names_first_missing_row single_period_store "2024" []);
    reflexivity.
Defined.

(** X3: a balance sheet without any period makes the leverage calculator
    raise [IndexError]: the latest label is read before the [try]. *)
Theorem leverage_no_period_raises
    {num : Type} `{Arith num} (self : FundamentalAnalyzer num) :
  columns (balance_sheet self) = [] ->
  calculate_leverage_ratios self = raise IndexError.
Proof.
  intros Hc. unfold calculate_leverage_ratios. now rewrite Hc, getitem_empty.
Qed.

Lemma leverage_no_period_raises_witness :
  calculate_leverage_ratios no_period_store = raise IndexError.
Proof. apply leverage_no_period_raises. reflexivity. Defined.

(** ** Profitability: the diagnostic *)

(** X4: with a latest period in the income statement, the warning of the
    profitability calculator names the first lookup that fails, in the order
    Total Revenue, Net Income, Total Assets, Stockholders Equity; when the
    balance sheet lacks the income statement's latest label, the label, not
    a row, is what it names. *)
Theorem profitability_names_first_failure
    {num : Type} `{Arith num} (self : FundamentalAnalyzer num)
    (latest : string) (rest : list string) :
  columns (income_stmt self) = latest :: rest ->
  let inc row := contains (index (income_stmt self)) row in
  let bal row := contains (index (balance_sheet self)) row in
  let aligned := contains (columns (balance_sheet self)) latest in
  let warns k :=
    calculate_profitability_ratios self
    = (profitability_diagnostic self k, Return []) in
  (inc "Total Revenue" = false -> warns "Total Revenue") /\
  (inc "Total Revenue" = true -> inc "Net Income" = false ->
   warns "Net Income") /\
  (inc "Total Revenue" = true -> inc "Net Income" = true ->
   aligned = false -> warns latest) /\
  (inc "Total Revenue" = true -> inc "Net Income" = true ->
   aligned = true -> bal "Total Assets" = false -> warns "Total Assets") /\
  (inc "Total Revenue" = true -> inc "Net Income" = true ->
   aligned = true -> bal "Total Assets" = true ->
   bal "Stockholders Equity" = false -> warns "Stockholders Equity").
Proof.
  intros Hc inc bal aligned warns. subst inc bal aligned warns.
  assert (Hl : contains (columns (income_stmt self)) latest = true)
    by (rewrite Hc; apply contains_head).
  repeat split.
  - intros Hr. apply (profitability_first_failure self latest rest _ Hc).
    left. now apply loc_absent_row.
  - intros Hr Hn. apply (profitability_first_failure self latest rest _ Hc).
    right. split; [now apply loc_present|].
    left. now apply loc_absent_row.
  - intros Hr Hn Ha. apply (profitability_first_failure self latest rest _ Hc).
    right. split; [now apply loc_present|].
    right. split; [now apply loc_present|].
    left. now apply loc_missing_column.
  - intros Hr Hn Ha Ht.
    apply (profitability_first_failure self latest rest _ Hc).
    right. split; [now apply loc_present|].
    right. split; [now apply loc_present|].
    left. now apply loc_absent_row.
  - intros Hr Hn Ha Ht He.
    apply (profitability_first_failure self latest rest _ Hc).
    right. split; [now apply loc_present|].
    right. split; [now apply loc_present|].
    right. split; [now apply loc_present|]. now apply loc_absent_row.
Qed.

Lemma profitability_names_first_failure_witness :
  calculate_profitability_ratios missing_item_store
  = (profitability_diagnostic missing_item_store "Net Income", Return []) /\
  calculate_profitability_ratios mismatched_store
  = (profitability_diagnostic mismatched_store "2024", Return []).
Proof.
  split.
  - apply (profitability_names_first_failure missing_item_store "2024" []);
      reflexivity.
  - apply (profitability_names_first_failure mismatched_store "2024" []);
      reflexivity.
Defined.

(** ** Growth *)

(** X5: the growth calculator never raises and never prints, whatever the
    store: it returns the 'Note' entry, the empty dict, or its two growth
    figures. *)
Theorem growth_never_raises
    {num : Type} `{Arith num} (self : FundamentalAnalyzer num) :
  exists d,
    calculate_growth_metrics self = ret d /\
    (d = [("Note", VStr "Insufficient data for growth calculation")] \/
     d = [] \/
     exists revenue_growth net_income_growth,
       d = [ ("Revenue Growth YoY (%)", VNum revenue_growth);
             ("Net Income Growth YoY (%)", VNum net_income_growth) ]).
Proof.
  destruct (columns (income_stmt self)) as [|c0 [|c1 rest]] eqn:Hc.
  - eexists. split; [|left; reflexivity].
    unfold calculate_growth_metrics. now rewrite Hc.
  - eexists. split; [|left; reflexivity].
    unfold calculate_growth_metrics. now rewrite Hc.
  - destruct (contains (index (income_stmt self)) "Total Revenue") eqn:Hr.
    2:{ exists []. split; [|auto].
        apply (growth_row_missing self c0 c1 rest Hc). now left. }
    destruct (contains (index (income_stmt self)) "Net Income") eqn:Hn.
    2:{ exists []. split; [|auto].
        apply (growth_row_missing self c0 c1 rest Hc). now right. }
    assert (H0 : contains (columns (income_stmt self)) c0 = true)
      by (rewrite Hc; apply contains_head).
    assert (H1 : contains (columns (income_stmt self)) c1 = true).
    { rewrite Hc. unfold contains. cbn [existsb].
      now rewrite (String.eqb_refl c1), orb_true_r. }
    destruct (loc_present _ _ _ Hr H0) as [v1 E1].
    destruct (loc_present _ _ _ Hr H1) as [v2 E2].
    destruct (loc_present _ _ _ Hn H0) as [v3 E3].
    destruct (loc_present _ _ _ Hn H1) as [v4 E4].
    eexists. split;
      [apply (growth_of_cells self c0 c1 rest v1 v2 v3 v4); assumption|].
    right. right. eauto.
Qed.

(** X6: with two or more periods, the growth calculator compares the cells
    under the first two labels: when 'Total Revenue' and 'Net Income' are
    both there it returns ((current - previous) / previous) * 100 for each;
    when either row is absent it returns the empty dict and, unlike the
    other calculators, prints no warning. *)
Theorem growth_of_two_periods
    {num : Type} `{Arith num} (self : FundamentalAnalyzer num)
    (current_year previous_year : string) (rest : list string) :
  columns (income_stmt self) = current_year :: previous_year :: rest ->
  let has row := contains (index (income_stmt self)) row in
  (has "Total Revenue" = true -> has "Net Income" = true ->
   exists current_revenue previous_revenue current_ni previous_ni,
     loc (income_stmt self) "Total Revenue" current_year
     = ret current_revenue /\
     loc (income_stmt self) "Total Revenue" previous_year
     = ret previous_revenue /\
     loc (income_stmt self) "Net Income" current_year = ret current_ni /\
     loc (income_stmt self) "Net Income" previous_year = ret previous_ni /\
     calculate_growth_metrics self
     = ret [ ("Revenue Growth YoY (%)",
              VNum (((current_revenue - previous_revenue) / previous_revenue)
                    * of_Z 100)%num);
             ("Net Income Growth YoY (%)",
              VNum (((current_ni - previous_ni) / previous_ni)
                    * of_Z 100)%num) ]) /\
  (has "Total Revenue" = false \/ has "Net Income" = false ->
   calculate_growth_metrics self = ret []).
Proof.
  intros Hc has. subst has. split.
  - intros Hr Hn.
    assert (H0 : contains (columns (income_stmt self)) current_year = true)
      by (rewrite Hc; apply contains_head).
    assert (H1 : contains (columns (income_stmt self)) previous_year = true).
    { rewrite Hc. unfold contains. cbn [existsb].
      now rewrite (String.eqb_refl previous_year), orb_true_r. }
    destruct (loc_present _ _ _ Hr H0) as [v1 E1].
    destruct (loc_present _ _ _ Hr H1) as [v2 E2].
    destruct (loc_present _ _ _ Hn H0) as [v3 E3].
    destruct (loc_present _ _ _ Hn H1) as [v4 E4].
    exists v1, v2, v3, v4. repeat split; try assumption.
    now apply (growth_of_cells self current_year previous_year rest).
  - intros Hmiss.
    now apply (growth_row_missing self current_year previous_year rest).
Qed.

Lemma growth_of_two_periods_witness :
  (exists current_revenue previous_revenue current_ni previous_ni,
      loc (income_stmt loss_store) "Total Revenue" "2024"
      = ret current_revenue /\
      loc (income_stmt loss_store) "Total Revenue" "2023"
      = ret previous_revenue /\
      loc (income_stmt loss_store) "Net Income" "2024" = ret current_ni /\
      loc (income_stmt loss_store) "Net Income" "2023" = ret previous_ni /\
      calculate_growth_metrics loss_store
      = ret [ ("Revenue Growth YoY (%)",
               VNum (((current_revenue - previous_revenue)
                      / previous_revenue) * of_Z 100)%num);
              ("Net Income Growth YoY (%)",
               VNum (((current_ni - previous_ni) / previous_ni)
                     * of_Z 100)%num) ]) /\
  calculate_growth_metrics growth_missing_store = ret [].
Proof.
  split.
  - apply (growth_of_two_periods loss_store "2024" "2023" [] eq_refl);
      reflexivity.
  - apply (growth_of_two_periods growth_missing_store "2024" "2023" []
             eq_refl).
    right. reflexivity.
Defined.

(** X7: division is not guarded in the profitability calculator.  With
    float64 cells and a denominator (revenue, assets or equity) that is
    zero, the call raises no [ZeroDivisionError] and prints nothing: it
    returns its three entries, the ratio over that denominator being an
    infinity or NaN.  numpy's RuntimeWarning is the one signal, and only for
    a finite net income: divide by zero, or invalid value for 0/0. *)
Theorem profitability_zero_denominator (self : FundamentalAnalyzer float)
    (latest : string) (rest : list string) (revenue ni assets equity : float) :
  columns (income_stmt self) = latest :: rest ->
  loc (income_stmt self) "Total Revenue" latest = ret revenue ->
  loc (income_stmt self) "Net Income" latest = ret ni ->
  loc (balance_sheet self) "Total Assets" latest = ret assets ->
  loc (balance_sheet self) "Stockholders Equity" latest = ret equity ->
  exists margin roa roe,
    calculate_profitability_ratios self
    = ret [ ("Net Profit Margin (%)", VNum margin);
            ("ROA (Return on Assets %)", VNum roa);
            ("ROE (Return on Equity %)", VNum roe) ] /\
    let flag := if float_is_finite ni
                then Some (if float_is_zero ni then Invalid else DivideByZero)
                else None in
    (float_is_zero revenue = true ->
     float_is_finite margin = false /\ np_flag NpDiv ni revenue = flag) /\
    (float_is_zero assets = true ->
     float_is_finite roa = false /\ np_flag NpDiv ni assets = flag) /\
    (float_is_zero equity = true ->
     float_is_finite roe = false /\ np_flag NpDiv ni equity = flag).
Proof.
  intros Hc E1 E2 E3 E4.
  rewrite (profitability_of_cells self latest rest _ _ _ _ Hc E1 E2 E3 E4).
  unfold profitability_entries. do 3 eexists. split; [reflexivity|].
  cbv zeta. repeat split;
    try (apply float_mul_not_finite, float_div_zero_not_finite; assumption);
    now apply np_flag_div_zero.
Qed.

Lemma profitability_zero_denominator_witness :
  exists margin roa roe,
    calculate_profitability_ratios zero_revenue_store
    = ret [ ("Net Profit Margin (%)", VNum margin);
            ("ROA (Return on Assets %)", VNum roa);
            ("ROE (Return on Equity %)", VNum roe) ] /\
    let flag := if float_is_finite (-5)%float
                then Some (if float_is_zero (-5)%float then Invalid
                           else DivideByZero)
                else None in
    (float_is_zero 0%float = true ->
     float_is_finite margin = false /\
     np_flag NpDiv (-5)%float 0%float = flag) /\
    (float_is_zero 50%float = true ->
     float_is_finite roa = false /\
     np_flag NpDiv (-5)%float 50%float = flag) /\
    (float_is_zero 0%float = true ->
     float_is_finite roe = false /\
     np_flag NpDiv (-5)%float 0%float = flag).
Proof.
  apply (profitability_zero_denominator zero_revenue_store "2024" []);
    reflexivity.
Defined.

(** X8: a row that is present with an empty (NaN) latest cell is not a
    missing item: with 'Net Income' read as NaN the profitability calculator
    prints nothing and returns all three ratios as NaN, not the empty
    dict. *)
Theorem profitability_empty_cell_gives_nan (self : FundamentalAnalyzer xq)
    (latest : string) (rest : list string) (revenue assets equity : xq) :
  columns (income_stmt self) = latest :: rest ->
  loc (income_stmt self) "Total Revenue" latest = ret revenue ->
  loc (income_stmt self) "Net Income" latest = ret NaN ->
  loc (balance_sheet self) "Total Assets" latest = ret assets ->
  loc (balance_sheet self) "Stockholders Equity" latest = ret equity ->
  calculate_profitability_ratios self
  = ret [ ("Net Profit Margin (%)", VNum NaN);
          ("ROA (Return on Assets %)", VNum NaN);
          ("ROE (Return on Equity %)", VNum NaN) ].
Proof.
  intros Hc E1 E2 E3 E4.
  now rewrite (profitability_of_cells self latest rest _ _ _ _ Hc E1 E2 E3 E4).
Qed.

Lemma profitability_empty_cell_gives_nan_witness :
  calculate_profitability_ratios empty_cell_store
  = ret [ ("Net Profit Margin (%)", VNum NaN);
          ("ROA (Return on Assets %)", VNum NaN);
          ("ROE (Return on Equity %)", VNum NaN) ].
Proof.
  apply (profitability_empty_cell_gives_nan empty_cell_store "2024" []
           (Fin 100) (Fin 200) (Fin 100)); reflexivity.
Defined.

(** ** Valuation: every way the call can end *)

Section MoreValuationFacts.
Context {num : Type} `{Arith num} `{Power num}.
Variable self : FundamentalAnalyzer num.

(** The selection of the base cash flow ends in one of three ways; none of
    them is a [KeyError]. *)
Lemma dcf_base_fcf_outcome :
  (columns (cashflow self) = [] /\ dcf_base_fcf self = raise IndexError) \/
  dcf_base_fcf self = ([[Lit "Cannot find cash flow data"]], Return None) \/
  (exists fcf, dcf_base_fcf self = ret (Some fcf)).
Proof.
  destruct (columns (cashflow self)) as [|latest rest] eqn:Hc.
  - left. split; [reflexivity|]. unfold dcf_base_fcf.
    now rewrite Hc, getitem_empty.
  - right. destruct (dcf_base_fcf_cases self latest rest Hc) as (Hf & Ho & Hn).
    destruct (contains (index (cashflow self)) "Free Cash Flow") eqn:Ef.
    { destruct (Hf eq_refl) as (v & _ & Hb). eauto. }
    destruct (contains (index (cashflow self)) "Operating Cash Flow") eqn:Eo.
    2:{ left. now apply Hn. }
    destruct (Ho eq_refl eq_refl) as (ocf & _ & Hx & Hy).
    destruct (contains (index (cashflow self)) "Capital Expenditure") eqn:Ec.
    + destruct (Hx eq_refl) as (c & _ & Hb). eauto.
    + right. eexists. now apply Hy.
Qed.
End MoreValuationFacts.

(** X12: the valuation ends in one of five ways, for every store and every
    argument: [IndexError] when the cash-flow table has no period; the line
    'Cannot find cash flow data' and the empty dict; [ZeroDivisionError] or
    [OverflowError] out of [**], with nothing printed; or the five-entry
    dict with nothing printed.  A [KeyError] never escapes and the lines of
    the [except KeyError] handler are never printed. *)
Theorem dcf_outcomes
    {num : Type} `{Arith num} `{Power num} (self : FundamentalAnalyzer num)
    (g d : num) (years : Z) :
  (columns (cashflow self) = [] /\
   simple_dcf_valuation self g d years = raise IndexError) \/
  simple_dcf_valuation self g d years
  = ([[Lit "Cannot find cash flow data"]], Return []) \/
  simple_dcf_valuation self g d years = raise ZeroDivisionError \/
  simple_dcf_valuation self g d years = raise OverflowError \/
  exists m,
    simple_dcf_valuation self g d years = ret m /\
    keys m = [ "Enterprise Value"; "Current FCF"; "Projected FCF (PV)";
               "Terminal Value (PV)"; "Assumptions" ].
Proof.
  destruct (dcf_base_fcf_outcome self) as [[Hc Hb]|[Hb|[fcf Hb]]].
  - left. split; [exact Hc|]. now apply simple_dcf_no_periods.
  - right. left. unfold simple_dcf_valuation. now rewrite Hb.
  - right. right. rewrite (simple_dcf_of_base self fcf g d years Hb).
    destruct (dcf_project_shape fcf g d years) as [(p & t & ->)|[-> | ->]];
      [right; right | now left | right; now left].
    eexists. split; reflexivity.
Qed.

(** X13: whenever the valuation returns a dict that is not empty, its
    'Enterprise Value' is the sum of its 'Projected FCF (PV)' and its
    'Terminal Value (PV)', and its 'Assumptions' record the rates times 100
    and the horizon it was called with. *)
Theorem dcf_value_is_sum_of_parts
    {num : Type} `{Arith num} `{Power num} (self : FundamentalAnalyzer num)
    (g d : num) (years : Z) (m : dict num) :
  result (simple_dcf_valuation self g d years) = Return m ->
  m <> [] ->
  exists projected terminal,
    dict_get "Projected FCF (PV)" m = Some (VNum projected) /\
    dict_get "Terminal Value (PV)" m = Some (VNum terminal) /\
    dict_get "Enterprise Value" m = Some (VNum (projected + terminal)%num) /\
    dict_get "Assumptions" m
    = Some (VDict [ ("Growth Rate", VPercent (g * of_Z 100)%num);
                    ("Discount Rate", VPercent (d * of_Z 100)%num);
                    ("Years", VInt years) ]).
Proof.
  intros Hr Hne.
  destruct (dcf_base_fcf_outcome self) as [[Hc Hb]|[Hb|[fcf Hb]]].
  - rewrite (simple_dcf_no_periods self g d years Hc) in Hr. discriminate.
  - unfold simple_dcf_valuation in Hr. rewrite Hb in Hr. cbn in Hr.
    injection Hr as <-. contradiction.
  - rewrite (simple_dcf_of_base self fcf g d years Hb) in Hr.
    destruct (dcf_project_shape fcf g d years) as [(p & t & E)|[E|E]];
      rewrite E in Hr; [|discriminate..].
    cbn in Hr. injection Hr as <-. exists p, t. repeat split.
Qed.

Lemma dcf_value_is_sum_of_parts_witness :
  exists projected terminal,
    dict_get "Projected FCF (PV)"
      [ ("Enterprise Value", VNum (Fin 2520));
        ("Current FCF", VNum (Fin 120));
        ("Projected FCF (PV)", VNum (Fin (336902265 # 644204)));
        ("Terminal Value (PV)", VNum (Fin (1286491815 # 644204)));
        ("Assumptions",
         VDict [ ("Growth Rate", VPercent (Fin 5));
                 ("Discount Rate", VPercent (Fin 10));
                 ("Years", VInt 5) ]) ]
    = Some (VNum projected) /\
    dict_get "Terminal Value (PV)"
      [ ("Enterprise Value", VNum (Fin 2520));
        ("Current FCF", VNum (Fin 120));
        ("Projected FCF (PV)", VNum (Fin (336902265 # 644204)));
        ("Terminal Value (PV)", VNum (Fin (1286491815 # 644204)));
        ("Assumptions",
         VDict [ ("Growth Rate", VPercent (Fin 5));
                 ("Discount Rate", VPercent (Fin 10));
                 ("Years", VInt 5) ]) ]
    = Some (VNum terminal) /\
    dict_get "Enterprise Value"
      [ ("Enterprise Value", VNum (Fin 2520));
        ("Current FCF", VNum (Fin 120));
        ("Projected FCF (PV)", VNum (Fin (336902265 # 644204)));
        ("Terminal Value (PV)", VNum (Fin (1286491815 # 644204)));
        ("Assumptions",
         VDict [ ("Growth Rate", VPercent (Fin 5));
                 ("Discount Rate", VPercent (Fin 10));
                 ("Years", VInt 5) ]) ]
    = Some (VNum (projected + terminal)%num) /\
    dict_get "Assumptions"
      [ ("Enterprise Value", VNum (Fin 2520));
        ("Current FCF", VNum (Fin 120));
        ("Projected FCF (PV)", VNum (Fin (336902265 # 644204)));
        ("Terminal Value (PV)", VNum (Fin (1286491815 # 644204)));
        ("Assumptions",
         VDict [ ("Growth Rate", VPercent (Fin 5));
                 ("Discount Rate", VPercent (Fin 10));
                 ("Years", VInt 5) ]) ]
    = Some (VDict [ ("Growth Rate",
                     VPercent (Fin (5 # 100) * of_Z 100)%num);
                    ("Discount Rate",
                     VPercent (Fin (10 # 100) * of_Z 100)%num);
                    ("Years", VInt 5) ]).
Proof.
  apply (dcf_value_is_sum_of_parts scenario_cashflow (Fin (5 # 100))
           (Fin (10 # 100)) 5);
    [reflexivity | discriminate].
Defined.

Lemma float_nan_unique (x : float) :
  float_is_nan x = true -> x = PrimFloat.nan.
Proof.
  unfold float_is_nan. intros Hx. apply Prim2SF_inj.
  destruct (Prim2SF x); try discriminate. reflexivity.
Qed.

Section NanFacts.
Context `{Power float}.

(** From a NaN base cash flow every present value is NaN, and no operation
    of the loop raises a flag. *)
Lemma np_dcf_present_value_nan (g d : float) (year : Z) :
  (exists pv, np_dcf_present_value PrimFloat.nan g d year = np_ret pv /\
              float_is_nan pv = true) \/
  (exists e, np_dcf_present_value PrimFloat.nan g d year = ([], Raise e)).
Proof.
  unfold np_dcf_present_value. rewrite np_bind_pow.
  destruct (power (of_Z 1 + g)%num year) as [a| |]; [|right; eauto..].
  destruct (np_binop_nan_l NpMul PrimFloat.nan a eq_refl) as [-> Hn].
  rewrite np_bind_ret, np_bind_pow.
  destruct (power (of_Z 1 + d)%num year) as [b| |]; [|right; eauto..].
  destruct (np_binop_nan_l NpDiv _ b Hn) as [-> Hn']. left. eauto.
Qed.

Lemma np_dcf_loop_nan (g d : float) (years : list Z) :
  forall acc,
    Forall (fun x => float_is_nan x = true) acc ->
    (exists l, np_dcf_loop PrimFloat.nan g d years acc = np_ret l /\
               Forall (fun x => float_is_nan x = true) l /\
               length l = (length acc + length years)%nat) \/
    (exists e, np_dcf_loop PrimFloat.nan g d years acc = ([], Raise e)).
Proof.
  induction years as [|y ys IH]; intros acc Hacc; cbn [np_dcf_loop].
  - left. exists acc. repeat split; [assumption|]. cbn. lia.
  - destruct (np_dcf_present_value_nan g d y) as [(pv & -> & Hpv)|[e ->]];
      [|right; exists e; reflexivity].
    rewrite np_bind_ret.
    destruct (IH (acc ++ [pv])) as [(l & El & Hl & Hn)|[e Ee]].
    + apply Forall_app. split; [assumption|]. now constructor.
    + left. exists l. repeat split; [assumption..|].
      rewrite Hn, length_app. cbn. lia.
    + right. eauto.
Qed.

(** Summing NaN raises no flag; the sum of a list that is not empty is
    NaN. *)
Lemma np_sum_from_nan (l : list float) :
  forall s,
    float_is_nan s = true ->
    fold_left (fun acc x => np_bind acc (fun s => np_binop NpAdd s x)) l
      (np_ret s)
    = np_ret (fold_left add l s) /\
    float_is_nan (fold_left add l s) = true.
Proof.
  induction l as [|y ys IH]; intros s Hs; [now split|].
  cbn [fold_left]. rewrite np_bind_ret.
  destruct (np_binop_nan_l NpAdd s y Hs) as [-> Hs']. now apply IH.
Qed.

Lemma np_sum_nan (l : list float) :
  Forall (fun x => float_is_nan x = true) l ->
  np_sum l = np_ret (py_sum l) /\
  (l <> [] -> float_is_nan (py_sum l) = true).
Proof.
  intros Hl. unfold np_sum, py_sum.
  destruct Hl as [|x xs Hx Hxs]; [split; [reflexivity|contradiction]|].
  cbn [fold_left]. rewrite np_bind_ret.
  destruct (np_binop_nan_r NpAdd (of_Z 0) x Hx) as [-> Hs].
  destruct (np_sum_from_nan xs _ Hs) as [E Hn]. split; [exact E|].
  intros _. exact Hn.
Qed.
End NanFacts.

(** X18: a 'Free Cash Flow' row is taken even when its latest cell is empty
    (float64 cells): the base cash flow is then NaN and, unless [**] raises,
    the call prints nothing and returns NaN as 'Enterprise Value' and
    'Terminal Value (PV)'; 'Projected FCF (PV)' is NaN too when the horizon
    is at least one year.  No operation of the run sets off a numpy warning. *)
Theorem dcf_empty_fcf_cell_gives_nan (pw : Power float)
    (self : FundamentalAnalyzer float) (latest : string)
    (rest : list string) (g d : float) (N : Z) :
  columns (cashflow self) = latest :: rest ->
  loc (cashflow self) "Free Cash Flow" latest = ret PrimFloat.nan ->
  pow_raises (simple_dcf_valuation self g d N) \/
  exists projected,
    simple_dcf_valuation self g d N
    = ret [ ("Enterprise Value", VNum PrimFloat.nan);
            ("Current FCF", VNum PrimFloat.nan);
            ("Projected FCF (PV)", VNum projected);
            ("Terminal Value (PV)", VNum PrimFloat.nan);
            ("Assumptions",
             VDict [ ("Growth Rate", VPercent (g * of_Z 100)%num);
                     ("Discount Rate", VPercent (d * of_Z 100)%num);
                     ("Years", VInt N) ]) ] /\
    ((1 <= N)%Z -> projected = PrimFloat.nan) /\
    warnings (np_dcf_project PrimFloat.nan g d N) = [].
Proof.
  intros Hc Ef.
  destruct (dcf_base_fcf_cases self latest rest Hc) as (Hfcf & _ & _).
  destruct (Hfcf (loc_ret_row_present _ _ _ _ Ef)) as (v & Ev & Hb).
  rewrite Ef in Ev. apply ret_inj in Ev. subst v.
  rewrite (simple_dcf_of_base self _ g d N Hb).
  destruct (dcf_project_parts PrimFloat.nan g d N)
    as [Hr|(l & p & q & El & Ep & Eq & E)]; [now left|right].
  assert (Ht : float_is_nan
                 ((((PrimFloat.nan * p) * (of_Z 1 + g)) / (d - g)) / q)%num
               = true).
  { cbn [mul div float_Arith].
    apply float_div_nan, float_div_nan, float_mul_nan, float_mul_nan.
    reflexivity. }
  rewrite E. exists (py_sum l).
  rewrite (float_nan_unique _ Ht).
  rewrite (float_nan_unique (py_sum l + PrimFloat.nan)%num)
    by (apply float_add_nan_r; reflexivity).
  split; [reflexivity|].
  destruct (np_dcf_loop_nan g d (range1 N) [] (Forall_nil _))
    as [(l' & El' & Hl' & Hne)|[e Ee]].
  2:{ pose proof (np_dcf_loop_result PrimFloat.nan g d (range1 N) []) as R.
      rewrite Ee, El in R. discriminate R. }
  assert (l' = l).
  { pose proof (np_dcf_loop_result PrimFloat.nan g d (range1 N) []) as R.
    rewrite El', El in R. cbn in R. now injection R. }
  subst l'. destruct (np_sum_nan l Hl') as [Es Hs]. split.
  - intros HN. apply float_nan_unique, Hs. intros ->.
    unfold range1 in Hne. rewrite length_map, length_seq in Hne.
    cbn in Hne. lia.
  - unfold np_dcf_project. rewrite El', np_bind_ret, np_bind_pow, Ep.
    destruct (np_binop_nan_l NpMul PrimFloat.nan p eq_refl) as [-> H1].
    rewrite np_bind_ret.
    destruct (np_binop_nan_l NpMul _ (of_Z 1 + g)%num H1) as [-> H2].
    rewrite np_bind_ret.
    destruct (np_binop_nan_l NpDiv _ (d - g)%num H2) as [-> H3].
    rewrite np_bind_ret, np_bind_pow, Eq.
    destruct (np_binop_nan_l NpDiv _ q H3) as [-> H4].
    rewrite np_bind_ret, Es, np_bind_ret.
    destruct (np_binop_nan_r NpAdd (py_sum l) _ H4) as [-> H5].
    rewrite !np_bind_ret. reflexivity.
Qed.

Lemma dcf_empty_fcf_cell_gives_nan_witness :
  contains (index (cashflow empty_fcf_store)) "Free Cash Flow" = true /\
  simple_dcf_valuation empty_fcf_store default_growth_rate
    default_discount_rate 5
  = ret [ ("Enterprise Value", VNum PrimFloat.nan);
          ("Current FCF", VNum PrimFloat.nan);
          ("Projected FCF (PV)", VNum PrimFloat.nan);
          ("Terminal Value (PV)", VNum PrimFloat.nan);
          ("Assumptions",
           VDict [ ("Growth Rate", VPercent 5%float);
                   ("Discount Rate", VPercent 10%float);
                   ("Years", VInt 5) ]) ] /\
  warnings (np_dcf_project PrimFloat.nan default_growth_rate
              default_discount_rate 5) = [].
Proof.
  split; [reflexivity|].
  destruct (dcf_empty_fcf_cell_gives_nan float_Power empty_fcf_store "2024"
              [] default_growth_rate default_discount_rate 5 eq_refl eq_refl)
    as [[Hr|Hr]|(projected & Hv & Hp & Hw)].
  - vm_compute in Hr. discriminate Hr.
  - vm_compute in Hr. discriminate Hr.
  - split; [|exact Hw]. rewrite Hv, Hp by lia. vm_compute. reflexivity.
Defined.

(** ** The aggregate report *)

Lemma bind_returned {A B} (m : M A) (f : A -> M B) (o : list line) (a : A) :
  m = (o, Return a) -> bind m f = (o ++ output (f a), result (f a)).
Proof. intros ->. unfold bind. now destruct (f a). Qed.

Lemma bind_raised {A B} (m : M A) (f : A -> M B) (o : list line) (e : exn) :
  m = (o, Raise e) -> bind m f = (o, Raise e).
Proof. now intros ->. Qed.

Section ReportFacts.
Context {num : Type} `{Arith num} `{Power num} `{Defaults num}.
Variable self : FundamentalAnalyzer num.

Lemma profitability_returns (latest : string) (rest : list string) :
  columns (income_stmt self) = latest :: rest ->
  exists o p, calculate_profitability_ratios self = (o, Return p).
Proof.
  intros Hc.
  destruct (profitability_cases self latest rest Hc)
    as [(r & n & a & e & _ & _ & _ & _ & E)|(k & _ & E)]; rewrite E;
    unfold ret; eauto.
Qed.

Lemma leverage_returns (latest : string) (rest : list string) :
  columns (balance_sheet self) = latest :: rest ->
  exists o l, calculate_leverage_ratios self = (o, Return l).
Proof.
  intros Hc.
  destruct (leverage_cases self latest rest Hc)
    as [(d & e & a & _ & _ & _ & E)|(k & E)]; rewrite E; unfold ret; eauto.
Qed.

Lemma growth_returns : exists g, calculate_growth_metrics self = ret g.
Proof.
  destruct (columns (income_stmt self)) as [|c0 [|c1 rest]] eqn:Hc;
    try (eexists; unfold calculate_growth_metrics; now rewrite Hc).
  unfold calculate_growth_metrics. rewrite Hc.
  cbn [length Nat.ltb Nat.leb getitem nth_error]. rewrite !bind_ret.
  destruct (loc_outcome (income_stmt self) "Total Revenue" c0)
    as [[v1 E1]|[k E1]]; rewrite E1;
    [rewrite bind_ret | rewrite bind_raise, try_KeyError; eauto].
  destruct (loc_outcome (income_stmt self) "Total Revenue" c1)
    as [[v2 E2]|[k E2]]; rewrite E2;
    [rewrite bind_ret | rewrite bind_raise, try_KeyError; eauto].
  destruct (loc_outcome (income_stmt self) "Net Income" c0)
    as [[v3 E3]|[k E3]]; rewrite E3;
    [rewrite bind_ret | rewrite bind_raise, try_KeyError; eauto].
  destruct (loc_outcome (income_stmt self) "Net Income" c1)
    as [[v4 E4]|[k E4]]; rewrite E4;
    [rewrite bind_ret | rewrite bind_raise, try_KeyError; eauto].
  rewrite try_ret. eauto.
Qed.

(** When the four calculators return, the report holds their results under
    its four section names, after the ticker, and the printed lines follow
    in the order of the calls. *)
Lemma summary_of_parts (op ol ov : list line) (p l g v : dict num) :
  calculate_profitability_ratios self = (op, Return p) ->
  calculate_leverage_ratios self = (ol, Return l) ->
  calculate_growth_metrics self = ret g ->
  simple_dcf_valuation self default_growth_rate default_discount_rate
    default_years = (ov, Return v) ->
  generate_analysis_summary self
  = (op ++ ol ++ ov,
     Return [ ("Ticker", VStr (ticker self));
              ("Profitability Ratios", VDict p);
              ("Leverage Ratios", VDict l);
              ("Growth Metrics", VDict g);
              ("DCF Valuation", VDict v) ]).
Proof.
  intros Ep El Eg Ev. unfold generate_analysis_summary.
  rewrite (bind_returned _ _ op p Ep), (bind_returned _ _ ol l El).
  rewrite Eg, bind_ret, (bind_returned _ _ ov v Ev).
  cbn [output result ret fst snd]. now rewrite !app_nil_r.
Qed.
End ReportFacts.

(** X19: one statement without a period sinks the whole report.  If the
    income statement, the balance sheet or the cash-flow statement has no
    period column, [generate_analysis_summary] raises [IndexError] and
    returns no report, whatever the other statements hold. *)
Theorem summary_needs_every_period
    {num : Type} `{Arith num} `{Power num} `{Defaults num}
    (self : FundamentalAnalyzer num) :
  columns (income_stmt self) = [] \/
  columns (balance_sheet self) = [] \/
  columns (cashflow self) = [] ->
  result (generate_analysis_summary self) = Raise IndexError.
Proof.
  intros Hempty. unfold generate_analysis_summary.
  destruct (columns (income_stmt self)) as [|li ri] eqn:Hi.
  { unfold calculate_profitability_ratios. now rewrite Hi, getitem_empty. }
  destruct (profitability_returns self li ri Hi) as (op & p & Ep).
  rewrite (bind_returned _ _ op p Ep). cbn [result snd].
  destruct (columns (balance_sheet self)) as [|lb rb] eqn:Hb.
  { unfold calculate_leverage_ratios. now rewrite Hb, getitem_empty. }
  destruct (leverage_returns self lb rb Hb) as (ol & l & El).
  rewrite (bind_returned _ _ ol l El). cbn [result snd].
  destruct (growth_returns self) as (g & Eg). rewrite Eg, bind_ret.
  destruct Hempty as [Hc|[Hc|Hc]]; try discriminate.
  now rewrite (simple_dcf_no_periods self _ _ _ Hc).
Qed.

Lemma summary_needs_every_period_witness :
  result (generate_analysis_summary (scenario_store (num := xq)))
  = Raise IndexError.
Proof.
  apply summary_needs_every_period. right. right. reflexivity.
Defined.

(** In exact arithmetic [**] at an exponent that is not negative returns. *)
Lemma xq_pow_returns (x : xq) (n : Z) :
  (0 <= n)%Z -> exists y, pow x n = ret y.
Proof.
  intros Hn. unfold pow. cbn [power xq_Power]. unfold xq_pow.
  destruct (n =? 0)%Z; [eauto|].
  replace (n <? 0)%Z with false by (symmetry; apply Z.ltb_ge; lia).
  destruct x; [rewrite Bool.andb_false_r|..]; eauto.
Qed.

Lemma simple_dcf_returns (self : FundamentalAnalyzer xq)
    (g d : xq) (N : Z) :
  columns (cashflow self) <> [] -> (0 <= N)%Z ->
  exists o v, simple_dcf_valuation self g d N = (o, Return v).
Proof.
  intros Hc HN.
  destruct (dcf_base_fcf_outcome self) as [[Hc' _]|[Hb|[fcf Hb]]].
  - contradiction.
  - unfold simple_dcf_valuation. rewrite Hb. cbn. eauto.
  - rewrite (simple_dcf_of_base self fcf g d N Hb).
    destruct (dcf_project_returns fcf g d N) as [v ->]; [|unfold ret; eauto].
    intros y Hy.
    assert (Hy0 : (0 <= y)%Z)
      by (destruct Hy as [<- | Hy%range1_positive]; lia).
    destruct (xq_pow_returns (of_Z 1 + g)%num y Hy0) as [a Ea].
    destruct (xq_pow_returns (of_Z 1 + d)%num y Hy0) as [b Eb].
    eauto.
Qed.

(** X20: when each of the three statements has at least one period, the
    report is returned, never an exception (exact arithmetic): it is the
    ticker followed by the four calculators' results under 'Profitability
    Ratios', 'Leverage Ratios', 'Growth Metrics' and 'DCF Valuation', an
    empty result in one section leaving the others as they are, and the
    printed lines are the calculators' diagnostics in the order of the
    calls. *)
Theorem summary_returns_every_section (self : FundamentalAnalyzer xq) :
  columns (income_stmt self) <> [] ->
  columns (balance_sheet self) <> [] ->
  columns (cashflow self) <> [] ->
  exists p l g v,
    result (calculate_profitability_ratios self) = Return p /\
    result (calculate_leverage_ratios self) = Return l /\
    result (calculate_growth_metrics self) = Return g /\
    result (simple_dcf_valuation self default_growth_rate
              default_discount_rate default_years) = Return v /\
    generate_analysis_summary self
    = (output (calculate_profitability_ratios self)
       ++ output (calculate_leverage_ratios self)
       ++ output (simple_dcf_valuation self default_growth_rate
                    default_discount_rate default_years),
       Return [ ("Ticker", VStr (ticker self));
                ("Profitability Ratios", VDict p);
                ("Leverage Ratios", VDict l);
                ("Growth Metrics", VDict g);
                ("DCF Valuation", VDict v) ]).
Proof.
  intros Hi Hb Hc.
  destruct (columns (income_stmt self)) as [|li ri] eqn:Ei; [contradiction|].
  destruct (columns (balance_sheet self)) as [|lb rb] eqn:Eb; [contradiction|].
  destruct (profitability_returns self li ri Ei) as (op & p & Ep).
  destruct (leverage_returns self lb rb Eb) as (ol & l & El).
  destruct (growth_returns self) as (g & Eg).
  destruct (simple_dcf_returns self default_growth_rate default_discount_rate
              default_years Hc) as (ov & v & Ev); [unfold default_years; lia|].
  exists p, l, g, v.
  rewrite (summary_of_parts self op ol ov p l g v Ep El Eg Ev).
  rewrite Ep, El, Eg, Ev. repeat split.
Qed.

Lemma summary_returns_every_section_witness :
  exists p l g v,
    result (calculate_profitability_ratios single_period_store) = Return p /\
    result (calculate_leverage_ratios single_period_store) = Return l /\
    result (calculate_growth_metrics single_period_store) = Return g /\
    result (simple_dcf_valuation single_period_store default_growth_rate
              default_discount_rate default_years) = Return v /\
    generate_analysis_summary single_period_store
    = (output (calculate_profitability_ratios single_period_store)
       ++ output (calculate_leverage_ratios single_period_store)
       ++ output (simple_dcf_valuation single_period_store
                    default_growth_rate default_discount_rate default_years),
       Return [ ("Ticker", VStr (ticker single_period_store));
                ("Profitability Ratios", VDict p);
                ("Leverage Ratios", VDict l);
                ("Growth Metrics", VDict g);
                ("DCF Valuation", VDict v) ]).
Proof.
  apply summary_returns_every_section; discriminate.
Defined.
